(** * OMPIO staging-buffer allocator: a shallow embedding of
      [ompi/mca/common/ompio/common_ompio_buffer.c]

    The C file keeps four file-scope variables (the allocator component, the
    allocator module, the initialisation counter and the cached page size, plus
    a mutex) and talks to three external collaborators: the accelerator
    framework ([opal_accelerator]), the C library ([malloc]/[free]) and the
    allocator framework ([mca_allocator_component_lookup] and the module it
    builds).  The embedding threads the file-scope variables through a small
    state monad, records every call that leaves the file as an [event] of a
    trace, and marks a call through a null function pointer or a division by
    zero as [Fault]. *)

From Stdlib Require Import ZArith List String Ascii Bool Lia NArith.
Import ListNotations.

Local Open Scope Z_scope.

(** ** Machine integers *)

Module MachInt.

(** [size_t] and [uint64_t] on the LP64 targets Open MPI builds for. *)
Definition SIZE_BITS : Z := 64.
Definition SIZE_MOD : Z := 2 ^ SIZE_BITS.
Definition SIZE_MAX : Z := SIZE_MOD - 1.

Definition INT32_MAX : Z := 2147483647.
Definition INT32_MIN : Z := -2147483648.

(** Conversion of an integer value to [size_t] (and to [uint64_t]):
    reduction modulo 2^64. *)
Definition to_size_t (x : Z) : Z := x mod SIZE_MOD.

(** Conversion to [int32_t]: two's complement wrap-around. *)
Definition to_int32 (x : Z) : Z := (x + 2 ^ 31) mod 2 ^ 32 - 2 ^ 31.

(** Modelled from the spec: the macro [OPAL_THREAD_ADD_FETCH32] comes from a
    header outside this file; the spec calls it the counter's atomic
    fetch-and-increment.  It adds [d] and hands back the new value; the
    counter is declared [opal_atomic_int32_t] (line 38), so the sum is kept
    in 32 bits. *)
Definition add_fetch32 (v d : Z) : Z := to_int32 (v + d).

End MachInt.
Import MachInt.

(** ** Pointers, handles and the events that leave the file *)

Inductive pointer : Type :=
| NULL
| Ptr (addr : Z).

Definition is_null (p : pointer) : bool :=
  match p with NULL => true | Ptr _ => false end.

(** Return codes used by this file. *)
Inductive ompi_rc : Type :=
| OMPI_SUCCESS
| OMPI_ERR_BUFFER.

(** One step of the allocator strategy's [alc_alloc]: it either answers from
    memory it already holds, or it first calls the segment-allocation callback
    it was built with, for [request] bytes, and computes its answer from the
    segment (address and granted size) it gets back. *)
Inductive alloc_step : Type :=
| FromPool (answer : pointer)
| NeedSegment (request : Z) (carve : pointer -> Z -> pointer).

(** [mca_allocator_base_module_t], as far as this file uses it. *)
Record mca_allocator_base_module_t : Type := {
  module_id : Z;
  alc_alloc : Z -> Z -> alloc_step;
  (** the segments the strategy hands to the segment-free callback when it
      is finalized *)
  alc_finalize : list pointer
}.

(** [mca_allocator_base_component_t]: [allocator_init] yields a module or
    nothing. *)
Record mca_allocator_base_component_t : Type := {
  allocator_init : bool -> option mca_allocator_base_module_t
}.

Inductive event : Type :=
| EvCheckAddr (buf : pointer)
| EvHostRegister (dev_id : Z) (buf : pointer) (size : Z)
| EvHostUnregister (dev_id : Z) (buf : pointer) (rc : Z)
| EvMalloc (size : Z)
| EvFree (buf : pointer)
| EvMutexConstruct
| EvMutexDestruct
| EvLock
| EvUnlock
| EvComponentLookup (name : string)
| EvAllocatorInit (thread_safe : bool)
| EvGetPagesize
| EvAlcAlloc (module : Z) (size : Z) (align : Z)
| EvAlcFree (module : Z) (buf : pointer)
| EvAlcFinalize (module : Z)
| EvOutput (stream : Z) (msg : string).

Definition trace := list event.

(** The external collaborators. *)
Record world : Type := {
  (** [opal_accelerator.check_addr (buf, &dev_id, &flags)]: return code, and
      the values [dev_id] and [flags] hold after the call ([flags] was 0
      before it). *)
  check_addr : pointer -> Z * Z * Z;
  (** return code of [opal_accelerator.host_unregister] *)
  host_unregister : Z -> pointer -> Z;
  malloc : Z -> pointer;
  opal_getpagesize : Z;
  mca_allocator_component_lookup : string -> option mca_allocator_base_component_t
}.

(** The file-scope variables. *)
Record state : Type := {
  mca_common_ompio_allocator_component : option mca_allocator_base_component_t;
  mca_common_ompio_allocator : option mca_allocator_base_module_t;
  mca_common_ompio_buffer_init : Z;
  mca_common_ompio_pagesize : Z
}.

(** Their initialisers (lines 35-39). *)
Definition initial_state : state := {|
  mca_common_ompio_allocator_component := None;
  mca_common_ompio_allocator := None;
  mca_common_ompio_buffer_init := 0;
  mca_common_ompio_pagesize := 4096
|}.

Definition set_component (c : option mca_allocator_base_component_t) (st : state) : state :=
  {| mca_common_ompio_allocator_component := c;
     mca_common_ompio_allocator := mca_common_ompio_allocator st;
     mca_common_ompio_buffer_init := mca_common_ompio_buffer_init st;
     mca_common_ompio_pagesize := mca_common_ompio_pagesize st |}.

Definition set_allocator (a : option mca_allocator_base_module_t) (st : state) : state :=
  {| mca_common_ompio_allocator_component := mca_common_ompio_allocator_component st;
     mca_common_ompio_allocator := a;
     mca_common_ompio_buffer_init := mca_common_ompio_buffer_init st;
     mca_common_ompio_pagesize := mca_common_ompio_pagesize st |}.

Definition set_buffer_init (n : Z) (st : state) : state :=
  {| mca_common_ompio_allocator_component := mca_common_ompio_allocator_component st;
     mca_common_ompio_allocator := mca_common_ompio_allocator st;
     mca_common_ompio_buffer_init := n;
     mca_common_ompio_pagesize := mca_common_ompio_pagesize st |}.

Definition set_pagesize (n : Z) (st : state) : state :=
  {| mca_common_ompio_allocator_component := mca_common_ompio_allocator_component st;
     mca_common_ompio_allocator := mca_common_ompio_allocator st;
     mca_common_ompio_buffer_init := mca_common_ompio_buffer_init st;
     mca_common_ompio_pagesize := n |}.

(** ** A state, trace and fault monad *)

Inductive outcome (A : Type) : Type :=
| Returned (a : A)
| Fault.
Arguments Returned {A} a.
Arguments Fault {A}.

Definition M (A : Type) : Type := state -> outcome A * state * trace.

Definition ret {A} (a : A) : M A := fun st => (Returned a, st, []).

Definition bind {A B} (m : M A) (k : A -> M B) : M B :=
  fun st =>
    match m st with
    | (Returned a, st1, t1) =>
        match k a st1 with
        | (r, st2, t2) => (r, st2, t1 ++ t2)
        end
    | (Fault, st1, t1) => (Fault, st1, t1)
    end.

Definition emit (e : event) : M unit := fun st => (Returned tt, st, [e]).
Definition fault {A} : M A := fun st => (Fault, st, []).
Definition get : M state := fun st => (Returned st, st, []).
Definition modify (f : state -> state) : M unit := fun st => (Returned tt, f st, []).

Notation "x <- m ;; k" := (bind m (fun x => k))
  (at level 61, m at next level, right associativity).
Notation "m ;; k" := (bind m (fun _ => k))
  (at level 61, right associativity).

Definition result_of {A} (r : outcome A * state * trace) : outcome A := fst (fst r).
Definition state_of {A} (r : outcome A * state * trace) : state := snd (fst r).
Definition trace_of {A} (r : outcome A * state * trace) : trace := snd r.

Fixpoint for_each {A} (f : A -> M unit) (l : list A) : M unit :=
  match l with
  | [] => ret tt
  | x :: l' => f x ;; for_each f l'
  end.

(** The C test [if (word & mask)]. *)
Definition flag_set (word mask : Z) : bool := negb (Z.land word mask =? 0).

(** ** The file handles, as far as this file reads them *)

Record ompi_file_t : Type := { f_flags : Z }.
Record ompio_file_t : Type := { f_fh : ompi_file_t }.

Definition newline : string := String (ascii_of_nat 10) EmptyString.

(** ** The functions of [common_ompio_buffer.c] *)

Section Program.

(** Constants of headers that are not part of this file. *)
Variable OMPI_FILE_ASSERT_NO_ACCEL_BUF : Z.
Variable MCA_ACCELERATOR_FLAGS_UNIFIED_MEMORY : Z.
Variable MCA_ACCELERATOR_NO_DEVICE_ID : Z.

Variable W : world.

(** Lines 43-64.  The result is the pair [( *is_gpu, *is_managed )]. *)
Definition mca_common_ompio_check_gpu_buf (fh : ompio_file_t) (buf : pointer) : M (Z * Z) :=
  let is_gpu := 0 in
  let is_managed := 0 in
  if flag_set (f_flags (f_fh fh)) OMPI_FILE_ASSERT_NO_ACCEL_BUF then
    ret (is_gpu, is_managed)
  else
    emit (EvCheckAddr buf) ;;
    let '(rc, dev_id, flags) := check_addr W buf in
    if 0 <? rc then
      let is_gpu := 1 in
      if flag_set flags (to_size_t MCA_ACCELERATOR_FLAGS_UNIFIED_MEMORY) then
        let is_managed := 1 in
        ret (is_gpu, is_managed)
      else ret (is_gpu, is_managed)
    else ret (is_gpu, is_managed).

(** Lines 66-82.  The result is the returned pointer and the value left in
    [*size].  All arithmetic is [size_t] arithmetic: the [int32_t] page size
    is converted first, every operation wraps, and a zero divisor is
    undefined behaviour. *)
Definition mca_common_ompio_buffer_alloc_seg (size : Z) : M (pointer * Z) :=
  st <- get ;;
  let pagesize := to_size_t (mca_common_ompio_pagesize st) in
  if pagesize =? 0 then fault
  else
    let numpages := to_size_t (to_size_t (size + pagesize) - 1) / pagesize in
    let realsize := to_size_t (numpages * pagesize) in
    emit (EvMalloc realsize) ;;
    let buf := malloc W realsize in
    (if negb (is_null buf)
     then emit (EvHostRegister MCA_ACCELERATOR_NO_DEVICE_ID buf realsize)
     else ret tt) ;;
    ret (buf, realsize).

(** Lines 84-96. *)
Definition mca_common_ompio_buffer_free_seg (buf : pointer) : M unit :=
  if negb (is_null buf) then
    emit (EvCheckAddr buf) ;;
    let '(rc, dev_id, flags) := check_addr W buf in
    (if rc =? 0
     then emit (EvHostUnregister dev_id buf (host_unregister W dev_id buf))
     else ret tt) ;;
    emit (EvFree buf)
  else ret tt.

(** Lines 98-129. *)
Definition mca_common_ompio_buffer_alloc_init : M ompi_rc :=
  let thread_safe := true in
  st <- get ;;
  let v := add_fetch32 (mca_common_ompio_buffer_init st) 1 in
  modify (set_buffer_init v) ;;
  if 1 <? v then ret OMPI_SUCCESS
  else
    emit EvMutexConstruct ;;
    emit EvLock ;;
    emit (EvComponentLookup "basic") ;;
    let c := mca_allocator_component_lookup W "basic" in
    modify (set_component c) ;;
    match c with
    | None => emit EvUnlock ;; ret OMPI_ERR_BUFFER
    | Some component =>
        emit (EvAllocatorInit thread_safe) ;;
        let a := allocator_init component thread_safe in
        modify (set_allocator a) ;;
        match a with
        | None => emit EvUnlock ;; ret OMPI_ERR_BUFFER
        | Some _ =>
            emit EvGetPagesize ;;
            modify (set_pagesize (to_int32 (opal_getpagesize W))) ;;
            emit EvUnlock ;;
            ret OMPI_SUCCESS
        end
    end.

(** Lines 131-142.  A finalized strategy gives its segments back through the
    segment-free callback it was built with. *)
Definition mca_common_ompio_buffer_alloc_fini : M ompi_rc :=
  st <- get ;;
  match mca_common_ompio_allocator st with
  | Some a =>
      emit EvLock ;;
      emit (EvAlcFinalize (module_id a)) ;;
      for_each mca_common_ompio_buffer_free_seg (alc_finalize a) ;;
      modify (set_allocator None) ;;
      emit EvUnlock ;;
      emit EvMutexDestruct
  | None => ret tt
  end ;;
  ret OMPI_SUCCESS.

(** [alc_alloc] of a module that was built with
    [mca_common_ompio_buffer_alloc_seg] as its segment callback. *)
Definition call_alc_alloc (a : mca_allocator_base_module_t) (size align : Z) : M pointer :=
  emit (EvAlcAlloc (module_id a) size align) ;;
  match alc_alloc a size align with
  | FromPool p => ret p
  | NeedSegment request carve =>
      seg <- mca_common_ompio_buffer_alloc_seg (to_size_t request) ;;
      ret (carve (fst seg) (snd seg))
  end.

(** Lines 144-157.  The call through [mca_common_ompio_allocator] is a call
    through a null pointer when that variable is [NULL]. *)
Definition mca_common_ompio_alloc_buf (fh : ompio_file_t) (bufsize : Z) : M pointer :=
  st <- get ;;
  (if mca_common_ompio_buffer_init st =? 0
   then mca_common_ompio_buffer_alloc_init ;; ret tt
   else ret tt) ;;
  emit EvLock ;;
  st <- get ;;
  match mca_common_ompio_allocator st with
  | None => fault
  | Some a =>
      tmp <- call_alc_alloc a bufsize 0 ;;
      emit EvUnlock ;;
      ret tmp
  end.

(** Lines 159-175. *)
Definition mca_common_ompio_release_buf (fh : ompio_file_t) (buf : pointer) : M unit :=
  st <- get ;;
  (if mca_common_ompio_buffer_init st =? 0
   then emit (EvOutput 1
     ("error in mca_common_ompio_release_buf: allocator not initialized" ++ newline))
   else ret tt) ;;
  emit EvLock ;;
  st <- get ;;
  match mca_common_ompio_allocator st with
  | None => fault
  | Some a =>
      emit (EvAlcFree (module_id a) buf) ;;
      emit EvUnlock
  end.

End Program.

(** ** Sample collaborators, used to run the model *)

Module Sample.

(** A strategy in the style of the "basic" allocator: every request draws a
    fresh segment, 16 bytes larger than the request, and the buffer starts
    behind a 16-byte header. *)
Definition basic_module : mca_allocator_base_module_t := {|
  module_id := 1;
  alc_alloc := fun size _ =>
    NeedSegment (size + 16)
      (fun seg _ => match seg with NULL => NULL | Ptr a => Ptr (a + 16) end);
  alc_finalize := [Ptr 65536]
|}.

Definition basic_component : mca_allocator_base_component_t :=
  {| allocator_init := fun _ => Some basic_module |}.

(** A component whose constructor yields no module. *)
Definition broken_component : mca_allocator_base_component_t :=
  {| allocator_init := fun _ => None |}.

(** A host-only machine: no pointer is device memory, [malloc] always
    succeeds, pages are 4096 bytes, the "basic" strategy is installed. *)
Definition host_only : world := {|
  check_addr := fun _ => (0, 0, 0);
  host_unregister := fun _ _ => 0;
  malloc := fun _ => Ptr 65536;
  opal_getpagesize := 4096;
  mca_allocator_component_lookup := fun name =>
    if String.eqb name "basic" then Some basic_component else None
|}.

(** The same machine without any allocator strategy. *)
Definition no_strategy : world := {|
  check_addr := fun _ => (0, 0, 0);
  host_unregister := fun _ _ => 0;
  malloc := fun _ => Ptr 65536;
  opal_getpagesize := 4096;
  mca_allocator_component_lookup := fun _ => None
|}.

(** A machine whose "basic" strategy cannot be instantiated. *)
Definition no_instance : world := {|
  check_addr := fun _ => (0, 0, 0);
  host_unregister := fun _ _ => 0;
  malloc := fun _ => Ptr 65536;
  opal_getpagesize := 4096;
  mca_allocator_component_lookup := fun _ => Some broken_component
|}.

(** A machine out of memory. *)
Definition out_of_memory : world := {|
  check_addr := fun _ => (0, 0, 0);
  host_unregister := fun _ _ => 0;
  malloc := fun _ => NULL;
  opal_getpagesize := 4096;
  mca_allocator_component_lookup := fun name =>
    if String.eqb name "basic" then Some basic_component else None
|}.

(** A machine with an accelerator: addresses from 2^40 on are device
    memory of device 3, those from 2^41 on are unified memory; the query
    fails on negative addresses; unregistration always fails. *)
Definition with_accelerator : world := {|
  check_addr := fun p =>
    match p with
    | NULL => (0, 0, 0)
    | Ptr a =>
        if a <? 0 then (-1, 0, 0)
        else if 2 ^ 41 <=? a then (1, 3, 1)
        else if 2 ^ 40 <=? a then (1, 3, 0)
        else (0, 0, 0)
    end;
  host_unregister := fun _ _ => -1;
  malloc := fun _ => Ptr 65536;
  opal_getpagesize := 4096;
  mca_allocator_component_lookup := fun name =>
    if String.eqb name "basic" then Some basic_component else None
|}.

Definition plain_file : ompio_file_t := {| f_fh := {| f_flags := 0 |} |}.
Definition no_accel_file : ompio_file_t := {| f_fh := {| f_flags := 16 |} |}.

(** The file-scope variables after a first, successful allocation ... *)
Definition ready : state :=
  state_of (mca_common_ompio_alloc_buf (-1) host_only plain_file 100 initial_state).

(** ... and after the finalize that follows it. *)
Definition torn_down : state :=
  state_of (mca_common_ompio_buffer_alloc_fini host_only ready).

End Sample.

(** ** Vocabulary of the specification *)

(** The spec's [ceil (s / pageSize)]: the quotient rounded towards plus
    infinity, written without reference to the C expression. *)
Definition ceil_div (s p : Z) : Z := - ((- s) / p).

(** The spec's [actualSize]. *)
Definition page_rounded (s p : Z) : Z := ceil_div s p * p.

(** The value lines 71-72 leave in [realsize]. *)
Definition realsize_of (st : state) (size : Z) : Z :=
  let pagesize := to_size_t (mca_common_ompio_pagesize st) in
  to_size_t (to_size_t (to_size_t (size + pagesize) - 1) / pagesize * pagesize).

(** The one-time construction body of [mca_common_ompio_buffer_alloc_init]:
    mutex construction, strategy lookup, allocator instantiation, page-size
    caching. *)
Definition is_construction_event (e : event) : bool :=
  match e with
  | EvMutexConstruct | EvComponentLookup _ | EvAllocatorInit _ | EvGetPagesize => true
  | _ => false
  end.

Definition runs_construction (t : trace) : bool := existsb is_construction_event t.

(** The state [k] successive calls of [mca_common_ompio_buffer_alloc_init]
    leave behind, starting from the initialisers. *)
Definition after_init_calls (W : world) (k : N) : state :=
  N.iter k (fun st => state_of (mca_common_ompio_buffer_alloc_init W st)) initial_state.

(** *** The claims that do not hold as written, as predicates *)

Section Claims.

Variable MCA_ACCELERATOR_NO_DEVICE_ID : Z.
Variable W : world.

(** C4 at the request [s]: if a segment comes back, its size is a whole
    number of pages, at least the request, and at least one page. *)
Definition segment_is_whole_pages_min_one (st : state) (s : Z) : Prop :=
  forall buf actual,
    result_of (mca_common_ompio_buffer_alloc_seg MCA_ACCELERATOR_NO_DEVICE_ID W s st)
      = Returned (buf, actual) ->
    (mca_common_ompio_pagesize st | actual)
    /\ s <= actual
    /\ mca_common_ompio_pagesize st <= actual.

(** C5 at the request [s]: a successful call leaves exactly
    [ceil (s / pageSize) * pageSize], which is at least [s]. *)
Definition segment_size_is_ceiling (st : state) (s : Z) : Prop :=
  forall a actual,
    result_of (mca_common_ompio_buffer_alloc_seg MCA_ACCELERATOR_NO_DEVICE_ID W s st)
      = Returned (Ptr a, actual) ->
    actual = page_rounded s (mca_common_ompio_pagesize st) /\ s <= actual.

(** C6 at call number [k + 1]: the construction body runs only if this call
    moves the counter from 0 to 1. *)
Definition constructs_only_on_first_increment (k : N) : Prop :=
  let st := after_init_calls W k in
  let r := mca_common_ompio_buffer_alloc_init W st in
  runs_construction (trace_of r) = true ->
  mca_common_ompio_buffer_init st = 0 /\ mca_common_ompio_buffer_init (state_of r) = 1.

End Claims.

(** ** Sequences of calls and lock discipline *)

(** The entry points other files can call. *)
Inductive call : Type :=
| CallCheckGpuBuf (fh : ompio_file_t) (buf : pointer)
| CallAllocInit
| CallAllocFini
| CallAllocBuf (fh : ompio_file_t) (bufsize : Z)
| CallReleaseBuf (fh : ompio_file_t) (buf : pointer).

Section Calls.

Variable OMPI_FILE_ASSERT_NO_ACCEL_BUF : Z.
Variable MCA_ACCELERATOR_FLAGS_UNIFIED_MEMORY : Z.
Variable MCA_ACCELERATOR_NO_DEVICE_ID : Z.
Variable W : world.

Definition run_call (c : call) : M unit :=
  match c with
  | CallCheckGpuBuf fh buf =>
      mca_common_ompio_check_gpu_buf OMPI_FILE_ASSERT_NO_ACCEL_BUF
        MCA_ACCELERATOR_FLAGS_UNIFIED_MEMORY W fh buf ;; ret tt
  | CallAllocInit => mca_common_ompio_buffer_alloc_init W ;; ret tt
  | CallAllocFini => mca_common_ompio_buffer_alloc_fini W ;; ret tt
  | CallAllocBuf fh bufsize =>
      mca_common_ompio_alloc_buf MCA_ACCELERATOR_NO_DEVICE_ID W fh bufsize ;; ret tt
  | CallReleaseBuf fh buf => mca_common_ompio_release_buf fh buf
  end.

(** The calls of [l] one after the other; a fault ends the run. *)
Definition run_calls (l : list call) : M unit := for_each run_call l.

End Calls.

Definition faulted {A} (r : outcome A) : bool :=
  match r with Returned _ => false | Fault => true end.

(** Calls into the allocator framework, the C library and the registration
    interface, which the file makes between [OPAL_THREAD_LOCK] and
    [OPAL_THREAD_UNLOCK]. *)
Definition under_lock_only (e : event) : bool :=
  match e with
  | EvComponentLookup _ | EvAllocatorInit _ | EvGetPagesize
  | EvAlcAlloc _ _ _ | EvAlcFree _ _ | EvAlcFinalize _
  | EvMalloc _ | EvFree _ | EvHostRegister _ _ _ | EvHostUnregister _ _ _ => true
  | _ => false
  end.

(** Construction and destruction of the mutex itself. *)
Definition outside_lock_only (e : event) : bool :=
  match e with
  | EvMutexConstruct | EvMutexDestruct => true
  | _ => false
  end.

(** Replays a trace against the mutex: [held] says whether the lock is taken
    on entry; the answer is whether it is taken at the end, or [None] when the
    trace locks a taken mutex, unlocks a free one, makes a guarded call
    without the lock, or constructs or destroys the mutex while it is
    taken. *)
Fixpoint lock_discipline (held : bool) (t : trace) : option bool :=
  match t with
  | [] => Some held
  | EvLock :: t' => if held then None else lock_discipline true t'
  | EvUnlock :: t' => if held then lock_discipline false t' else None
  | e :: t' =>
      if under_lock_only e && negb held then None
      else if outside_lock_only e && held then None
      else lock_discipline held t'
  end.

Definition count_address_queries (t : trace) : nat :=
  List.length (filter (fun e => match e with EvCheckAddr _ => true | _ => false end) t).

Definition has_registration (t : trace) : bool :=
  existsb (fun e => match e with EvHostRegister _ _ _ => true | _ => false end) t.

Definition malloc_calls (t : trace) : list Z :=
  flat_map (fun e => match e with EvMalloc n => [n] | _ => [] end) t.

(** A present handle was built by the "basic" component, which is the
    component on record, and the cached page size is the system's. *)
Definition handle_is_consistent (W : world) (st : state) : Prop :=
  forall a,
    mca_common_ompio_allocator st = Some a ->
    mca_common_ompio_pagesize st = to_int32 (opal_getpagesize W)
    /\ exists c,
        mca_allocator_component_lookup W "basic" = Some c
        /\ mca_common_ompio_allocator_component st = Some c
        /\ allocator_init c true = Some a.

(** The counter counts at most the calls made, and is at least 1 while a
    handle is present. *)
Definition counter_tracks_handle (n : Z) (st : state) : Prop :=
  0 <= mca_common_ompio_buffer_init st <= n
  /\ (mca_common_ompio_allocator st <> None -> 1 <= mca_common_ompio_buffer_init st).

(** What [alc_alloc] of the module [a] hands back for [size] bytes in the
    state [st]: its pooled answer, or what it carves from the segment that
    lines 71-80 produce for its request. *)
Definition strategy_answer (W : world) (a : mca_allocator_base_module_t)
           (size : Z) (st : state) : pointer :=
  match alc_alloc a size 0 with
  | FromPool p => p
  | NeedSegment request carve =>
      let realsize := realsize_of st (to_size_t request) in
      carve (malloc W realsize) realsize
  end.

(** ** Arithmetic of the page rounding *)

Lemma SIZE_MOD_value : SIZE_MOD = 18446744073709551616.
Proof. reflexivity. Qed.

Lemma SIZE_MAX_value : SIZE_MAX = 18446744073709551615.
Proof. reflexivity. Qed.

Lemma to_size_t_small (x : Z) : 0 <= x <= SIZE_MAX -> to_size_t x = x.
Proof.
  intros Hx. unfold to_size_t. apply Z.mod_small.
  rewrite SIZE_MAX_value in Hx. rewrite SIZE_MOD_value. lia.
Qed.

Lemma to_size_t_minus_idem (x y : Z) : to_size_t (to_size_t x - y) = to_size_t (x - y).
Proof. unfold to_size_t. apply Zminus_mod_idemp_l. Qed.

(** [ceil_div] is the ceiling: [ceil_div s p] pages cover [s] bytes, with
    less than a page to spare, and no smaller number of pages does. *)
Lemma ceil_div_bounds (s p : Z) :
  0 < p -> s <= ceil_div s p * p < s + p.
Proof.
  intros Hp. unfold ceil_div.
  pose proof (Z.div_mod (- s) p ltac:(lia)) as Hdm.
  pose proof (Z.mod_pos_bound (- s) p Hp) as Hr.
  nia.
Qed.

Lemma ceil_div_least (s p n : Z) :
  0 < p -> s <= n * p -> ceil_div s p <= n.
Proof.
  intros Hp Hn. pose proof (ceil_div_bounds s p Hp) as [_ Hub]. nia.
Qed.

(** The C idiom [(s + p - 1) / p] computes that ceiling. *)
Lemma c_round_up_is_ceil_div (s p : Z) :
  0 < p -> (s + p - 1) / p = ceil_div s p.
Proof.
  intros Hp. pose proof (ceil_div_bounds s p Hp) as [Hlb Hub].
  symmetry. apply Z.div_unique with (r := s + p - 1 - p * ceil_div s p); nia.
Qed.

Lemma page_rounded_divisible (s p : Z) : (p | page_rounded s p).
Proof. exists (ceil_div s p). reflexivity. Qed.

Lemma page_rounded_zero (p : Z) : page_rounded 0 p = 0.
Proof. unfold page_rounded, ceil_div. simpl. reflexivity. Qed.

Lemma page_rounded_at_least_a_page (s p : Z) :
  0 < p -> 1 <= s -> p <= page_rounded s p.
Proof.
  intros Hp Hs. unfold page_rounded.
  pose proof (ceil_div_bounds s p Hp) as [Hlb _].
  assert (1 <= ceil_div s p) by nia. nia.
Qed.

(** Without wrap-around the [size_t] computation of lines 71-72 is the
    spec's [actualSize]. *)
Lemma realsize_no_wrap (s p : Z) :
  0 < p <= INT32_MAX -> 0 <= s -> s + p - 1 <= SIZE_MAX ->
  to_size_t (to_size_t (to_size_t (s + to_size_t p) - 1) / to_size_t p * to_size_t p)
    = page_rounded s p.
Proof.
  intros Hp Hs Hfit.
  assert (Hp64 : to_size_t p = p).
  { apply to_size_t_small. rewrite SIZE_MAX_value. unfold INT32_MAX in Hp. lia. }
  rewrite Hp64, to_size_t_minus_idem.
  rewrite (to_size_t_small (s + p - 1)) by lia.
  rewrite c_round_up_is_ceil_div by lia.
  fold (page_rounded s p).
  apply to_size_t_small.
  pose proof (ceil_div_bounds s p ltac:(lia)). unfold page_rounded. lia.
Qed.

(** ** Equations of the leaf functions *)

Section LeafEquations.

Variable OMPI_FILE_ASSERT_NO_ACCEL_BUF : Z.
Variable MCA_ACCELERATOR_FLAGS_UNIFIED_MEMORY : Z.
Variable MCA_ACCELERATOR_NO_DEVICE_ID : Z.
Variable W : world.

Lemma alloc_seg_run (size : Z) (st : state) :
  mca_common_ompio_buffer_alloc_seg MCA_ACCELERATOR_NO_DEVICE_ID W size st =
    if to_size_t (mca_common_ompio_pagesize st) =? 0 then (Fault, st, [])
    else
      let realsize := realsize_of st size in
      let buf := malloc W realsize in
      (Returned (buf, realsize), st,
       EvMalloc realsize ::
         (if is_null buf then []
          else [EvHostRegister MCA_ACCELERATOR_NO_DEVICE_ID buf realsize])).
Proof.
  unfold mca_common_ompio_buffer_alloc_seg, realsize_of.
  cbv beta iota zeta delta [bind get emit ret fault].
  destruct (to_size_t (mca_common_ompio_pagesize st) =? 0); [reflexivity|].
  destruct (malloc W _); reflexivity.
Qed.

Lemma free_seg_run (buf : pointer) (st : state) :
  mca_common_ompio_buffer_free_seg W buf st =
    match buf with
    | NULL => (Returned tt, st, [])
    | Ptr a =>
        let '(rc, dev_id, _) := check_addr W (Ptr a) in
        (Returned tt, st,
         EvCheckAddr (Ptr a) ::
           (if rc =? 0
            then [EvHostUnregister dev_id (Ptr a) (host_unregister W dev_id (Ptr a))]
            else [])
           ++ [EvFree (Ptr a)])
    end.
Proof.
  unfold mca_common_ompio_buffer_free_seg.
  destruct buf as [|a]; [reflexivity|].
  cbv beta iota zeta delta [bind get emit ret fault is_null negb].
  destruct (check_addr W (Ptr a)) as [[rc dev] flags].
  destruct (rc =? 0); reflexivity.
Qed.

Lemma check_gpu_buf_run (fh : ompio_file_t) (buf : pointer) (st : state) :
  mca_common_ompio_check_gpu_buf OMPI_FILE_ASSERT_NO_ACCEL_BUF
      MCA_ACCELERATOR_FLAGS_UNIFIED_MEMORY W fh buf st =
    if flag_set (f_flags (f_fh fh)) OMPI_FILE_ASSERT_NO_ACCEL_BUF
    then (Returned (0, 0), st, [])
    else
      let '(rc, _, flags) := check_addr W buf in
      (Returned
         (if 0 <? rc
          then (1, if flag_set flags (to_size_t MCA_ACCELERATOR_FLAGS_UNIFIED_MEMORY)
                   then 1 else 0)
          else (0, 0)),
       st, [EvCheckAddr buf]).
Proof.
  unfold mca_common_ompio_check_gpu_buf.
  destruct (flag_set (f_flags (f_fh fh)) OMPI_FILE_ASSERT_NO_ACCEL_BUF); [reflexivity|].
  cbv beta iota zeta delta [bind get emit ret fault].
  destruct (check_addr W buf) as [[rc dev] flags].
  destruct (0 <? rc); [|reflexivity].
  destruct (flag_set flags _); reflexivity.
Qed.

End LeafEquations.

Lemma flag_set_true (word mask : Z) : flag_set word mask = true <-> Z.land word mask <> 0.
Proof.
  unfold flag_set. rewrite negb_true_iff, Z.eqb_neq. reflexivity.
Qed.

Lemma flag_set_false (word mask : Z) : flag_set word mask = false <-> Z.land word mask = 0.
Proof.
  unfold flag_set. rewrite negb_false_iff, Z.eqb_eq. reflexivity.
Qed.

Lemma alloc_seg_no_wrap (NO_DEVICE : Z) (W : world) (st : state) (s : Z) :
  0 < mca_common_ompio_pagesize st <= INT32_MAX ->
  0 <= s ->
  s + mca_common_ompio_pagesize st - 1 <= SIZE_MAX ->
  let actual := page_rounded s (mca_common_ompio_pagesize st) in
  mca_common_ompio_buffer_alloc_seg NO_DEVICE W s st =
    (Returned (malloc W actual, actual), st,
     EvMalloc actual ::
       (if is_null (malloc W actual) then []
        else [EvHostRegister NO_DEVICE (malloc W actual) actual])).
Proof.
  intros Hp Hs Hfit actual. rewrite alloc_seg_run.
  assert (Hp64 : to_size_t (mca_common_ompio_pagesize st) = mca_common_ompio_pagesize st).
  { apply to_size_t_small. rewrite SIZE_MAX_value. unfold INT32_MAX in Hp. lia. }
  destruct (to_size_t (mca_common_ompio_pagesize st) =? 0) eqn:Hz.
  - apply Z.eqb_eq in Hz. lia.
  - assert (Hr : realsize_of st s = actual) by (apply realsize_no_wrap; assumption).
    cbv zeta. rewrite Hr. reflexivity.
Qed.

(** ** The segment provider *)

Lemma realsize_divisible (st : state) (s : Z) :
  0 < mca_common_ompio_pagesize st <= INT32_MAX ->
  (mca_common_ompio_pagesize st | realsize_of st s).
Proof.
  intros Hp.
  assert (Hp64 : to_size_t (mca_common_ompio_pagesize st) = mca_common_ompio_pagesize st).
  { apply to_size_t_small. rewrite SIZE_MAX_value. unfold INT32_MAX in Hp. lia. }
  unfold realsize_of. cbv zeta. rewrite Hp64.
  set (x := to_size_t (to_size_t (s + mca_common_ompio_pagesize st) - 1)).
  assert (Hx : 0 <= x < SIZE_MOD).
  { subst x. unfold to_size_t at 1. apply Z.mod_pos_bound. rewrite SIZE_MOD_value. lia. }
  pose proof (Z.mul_div_le x (mca_common_ompio_pagesize st) ltac:(lia)) as Hle.
  pose proof (Z.div_pos x (mca_common_ompio_pagesize st) ltac:(lia) ltac:(lia)) as Hq.
  rewrite to_size_t_small.
  - exists (x / mca_common_ompio_pagesize st). reflexivity.
  - unfold SIZE_MAX. nia.
Qed.

(** C4 (amended).  For every request [s] and a positive cached page size,
    [mca_common_ompio_buffer_alloc_seg] returns, and the size it leaves in
    [*size] is a whole multiple of the page size.  When the rounding
    expression [s + pagesize - 1] does not wrap around in [size_t], that size
    is not smaller than [s]; it is at least one page when [s >= 1], and it is
    0 for the zero-size request. *)
Theorem alloc_seg_whole_pages :
  forall (NO_DEVICE : Z) (W : world) (st : state) (s : Z),
    0 < mca_common_ompio_pagesize st <= INT32_MAX ->
    exists actual,
      result_of (mca_common_ompio_buffer_alloc_seg NO_DEVICE W s st)
        = Returned (malloc W actual, actual)
      /\ (mca_common_ompio_pagesize st | actual)
      /\ (0 <= s ->
          s + mca_common_ompio_pagesize st - 1 <= SIZE_MAX ->
          s <= actual
          /\ (1 <= s -> mca_common_ompio_pagesize st <= actual)
          /\ (s = 0 -> actual = 0)).
Proof.
  intros NO_DEVICE W st s Hp.
  exists (realsize_of st s).
  split; [|split].
  - rewrite alloc_seg_run.
    destruct (to_size_t (mca_common_ompio_pagesize st) =? 0) eqn:Hz.
    + apply Z.eqb_eq in Hz. rewrite to_size_t_small in Hz; [lia|].
      rewrite SIZE_MAX_value. unfold INT32_MAX in Hp. lia.
    + reflexivity.
  - apply realsize_divisible. exact Hp.
  - intros Hs Hfit.
    assert (Hr : realsize_of st s = page_rounded s (mca_common_ompio_pagesize st))
      by (apply realsize_no_wrap; assumption).
    rewrite Hr. split; [apply ceil_div_bounds; lia|]. split.
    + intros H1. apply page_rounded_at_least_a_page; lia.
    + intros ->. apply page_rounded_zero.
Qed.

(** C5 (amended).  For every request [s] whose rounding expression
    [s + pagesize - 1] does not wrap around in [size_t],
    [mca_common_ompio_buffer_alloc_seg] leaves exactly
    [ceil (s / pagesize) * pagesize] in [*size] (whether or not [malloc]
    succeeded), and that is at least [s]. *)
Theorem alloc_seg_size_is_ceiling :
  forall (NO_DEVICE : Z) (W : world) (st : state) (s : Z),
    0 < mca_common_ompio_pagesize st <= INT32_MAX ->
    0 <= s ->
    s + mca_common_ompio_pagesize st - 1 <= SIZE_MAX ->
    let actual := page_rounded s (mca_common_ompio_pagesize st) in
    result_of (mca_common_ompio_buffer_alloc_seg NO_DEVICE W s st)
      = Returned (malloc W actual, actual)
    /\ s <= actual.
Proof.
  intros NO_DEVICE W st s Hp Hs Hfit actual.
  rewrite alloc_seg_no_wrap by assumption.
  split; [reflexivity|].
  apply ceil_div_bounds. lia.
Qed.

(** C10.  [mca_common_ompio_buffer_alloc_seg] calls [malloc] first, for the
    rounded size.  When [malloc] returns a non-null pointer the function then
    registers exactly that range with the accelerator runtime
    ([host_register] with [MCA_ACCELERATOR_NO_DEVICE_ID], the pointer and the
    rounded size) and returns the pointer; when [malloc] returns [NULL] the
    function returns [NULL] and makes no registration call.  (With a page
    size that is zero as a [size_t] the division faults before any call.) *)
Theorem alloc_seg_registers_after_malloc :
  forall (NO_DEVICE : Z) (W : world) (st : state) (size : Z),
    let r := mca_common_ompio_buffer_alloc_seg NO_DEVICE W size st in
    let n := realsize_of st size in
    (to_size_t (mca_common_ompio_pagesize st) <> 0 ->
     (forall a,
         malloc W n = Ptr a ->
         r = (Returned (Ptr a, n), st, [EvMalloc n; EvHostRegister NO_DEVICE (Ptr a) n]))
     /\ (malloc W n = NULL ->
         r = (Returned (NULL, n), st, [EvMalloc n])))
    /\ (to_size_t (mca_common_ompio_pagesize st) = 0 -> r = (Fault, st, []))
    /\ (forall dev buf m,
          In (EvHostRegister dev buf m) (trace_of r) ->
          exists a,
            malloc W m = Ptr a /\ buf = Ptr a /\ dev = NO_DEVICE
            /\ trace_of r = [EvMalloc m; EvHostRegister NO_DEVICE (Ptr a) m]
            /\ result_of r = Returned (Ptr a, m)).
Proof.
  intros NO_DEVICE W st size r n. subst r n. rewrite alloc_seg_run.
  destruct (to_size_t (mca_common_ompio_pagesize st) =? 0) eqn:Hz.
  - apply Z.eqb_eq in Hz. split; [|split].
    + intros Hnz. contradiction.
    + reflexivity.
    + intros dev buf m [].
  - apply Z.eqb_neq in Hz. cbv zeta. split; [|split].
    + intros _. split.
      * intros a Hm. rewrite Hm. reflexivity.
      * intros Hm. rewrite Hm. reflexivity.
    + intros Habs. contradiction.
    + unfold trace_of, result_of. cbn [fst snd].
      destruct (malloc W (realsize_of st size)) as [|a] eqn:Hm; cbn [is_null].
      * intros dev buf m [H|[]]. discriminate H.
      * intros dev buf m [H|[H|[]]]; [discriminate H|].
        injection H as <- <- <-. exists a. repeat split; assumption.
Qed.

(** C9.  [mca_common_ompio_buffer_free_seg] does nothing at all for a null
    pointer.  For any other pointer it asks the accelerator runtime about the
    pointer, calls [host_unregister] exactly when the answer is 0 (host
    memory), and then frees the pointer; whatever [host_unregister] returns,
    the function returns normally and the trace ends with the [free]. *)
Theorem free_seg_null_noop_else_unregister_then_free :
  forall (W : world) (st : state),
    mca_common_ompio_buffer_free_seg W NULL st = (Returned tt, st, [])
    /\ forall a,
        let rc := fst (fst (check_addr W (Ptr a))) in
        let dev_id := snd (fst (check_addr W (Ptr a))) in
        mca_common_ompio_buffer_free_seg W (Ptr a) st =
          (Returned tt, st,
           [EvCheckAddr (Ptr a)]
             ++ (if rc =? 0
                 then [EvHostUnregister dev_id (Ptr a) (host_unregister W dev_id (Ptr a))]
                 else [])
             ++ [EvFree (Ptr a)]).
Proof.
  intros W st. split.
  - apply free_seg_run.
  - intros a. rewrite free_seg_run.
    destruct (check_addr W (Ptr a)) as [[rc dev] flags]. reflexivity.
Qed.

(** ** The accelerator classifier *)

(** C7.  When the handle does not carry [OMPI_FILE_ASSERT_NO_ACCEL_BUF], so
    that the runtime is asked, [mca_common_ompio_check_gpu_buf] maps the
    answer of [check_addr] so: positive return code with the
    [UNIFIED_MEMORY] flag gives [is_gpu = 1], [is_managed = 1]; positive
    without the flag gives [is_gpu = 1], [is_managed = 0]; zero or negative
    gives [is_gpu = 0], [is_managed = 0].  The function always returns, and
    leaves the file-scope variables alone. *)
Theorem check_gpu_buf_classification :
  forall (NO_ACCEL UNIFIED : Z) (W : world) (fh : ompio_file_t) (buf : pointer)
         (st : state) (rc dev_id flags : Z),
    Z.land (f_flags (f_fh fh)) NO_ACCEL = 0 ->
    check_addr W buf = (rc, dev_id, flags) ->
    let r := mca_common_ompio_check_gpu_buf NO_ACCEL UNIFIED W fh buf st in
    (0 < rc -> Z.land flags (to_size_t UNIFIED) <> 0 -> result_of r = Returned (1, 1))
    /\ (0 < rc -> Z.land flags (to_size_t UNIFIED) = 0 -> result_of r = Returned (1, 0))
    /\ (rc <= 0 -> result_of r = Returned (0, 0))
    /\ state_of r = st.
Proof.
  intros NO_ACCEL UNIFIED W fh buf st rc dev_id flags Hbypass Hanswer r. subst r.
  rewrite check_gpu_buf_run.
  apply flag_set_false in Hbypass. rewrite Hbypass, Hanswer.
  unfold result_of, state_of. cbn [fst snd].
  repeat split.
  - intros Hrc Hflag. apply Z.ltb_lt in Hrc. apply flag_set_true in Hflag.
    rewrite Hrc, Hflag. reflexivity.
  - intros Hrc Hflag. apply Z.ltb_lt in Hrc. apply flag_set_false in Hflag.
    rewrite Hrc, Hflag. reflexivity.
  - intros Hrc. apply Z.ltb_ge in Hrc. rewrite Hrc. reflexivity.
Qed.

(** C8.  On a handle whose flags include [OMPI_FILE_ASSERT_NO_ACCEL_BUF],
    [mca_common_ompio_check_gpu_buf] answers host memory ([is_gpu = 0],
    [is_managed = 0]) with an empty trace: the accelerator runtime is not
    asked, whatever it would have said about the pointer. *)
Theorem check_gpu_buf_bypass :
  forall (NO_ACCEL UNIFIED : Z) (W : world) (fh : ompio_file_t) (buf : pointer)
         (st : state),
    Z.land (f_flags (f_fh fh)) NO_ACCEL <> 0 ->
    mca_common_ompio_check_gpu_buf NO_ACCEL UNIFIED W fh buf st
      = (Returned (0, 0), st, []).
Proof.
  intros NO_ACCEL UNIFIED W fh buf st Hflag.
  rewrite check_gpu_buf_run.
  apply flag_set_true in Hflag. rewrite Hflag. reflexivity.
Qed.

(** ** Equations of the facade *)

Ltac run_monad := cbv beta iota zeta delta [bind get emit ret fault modify].

Lemma to_int32_small (x : Z) : INT32_MIN <= x <= INT32_MAX -> to_int32 x = x.
Proof.
  unfold to_int32, INT32_MIN, INT32_MAX. intros Hx.
  change (2 ^ 31) with 2147483648. change (2 ^ 32) with 4294967296.
  rewrite Z.mod_small; lia.
Qed.

Lemma to_int32_range (x : Z) : INT32_MIN <= to_int32 x <= INT32_MAX.
Proof.
  unfold to_int32, INT32_MIN, INT32_MAX.
  change (2 ^ 31) with 2147483648. change (2 ^ 32) with 4294967296.
  pose proof (Z.mod_pos_bound (x + 2147483648) 4294967296 ltac:(lia)). lia.
Qed.

Lemma add_fetch32_no_wrap (v : Z) :
  INT32_MIN <= v < INT32_MAX -> add_fetch32 v 1 = v + 1.
Proof.
  intros Hv. unfold add_fetch32. apply to_int32_small.
  unfold INT32_MIN, INT32_MAX in *. lia.
Qed.

Lemma add_fetch32_wraps : add_fetch32 INT32_MAX 1 = INT32_MIN.
Proof. reflexivity. Qed.

Lemma runs_construction_app (t1 t2 : trace) :
  runs_construction (t1 ++ t2) = runs_construction t1 || runs_construction t2.
Proof. apply existsb_app. Qed.

Section FacadeEquations.

Variable MCA_ACCELERATOR_NO_DEVICE_ID : Z.
Variable W : world.

Lemma alloc_init_run (st : state) :
  mca_common_ompio_buffer_alloc_init W st =
    let v := add_fetch32 (mca_common_ompio_buffer_init st) 1 in
    let st0 := set_buffer_init v st in
    if 1 <? v then (Returned OMPI_SUCCESS, st0, [])
    else
      match mca_allocator_component_lookup W "basic" with
      | None =>
          (Returned OMPI_ERR_BUFFER, set_component None st0,
           [EvMutexConstruct; EvLock; EvComponentLookup "basic"; EvUnlock])
      | Some c =>
          match allocator_init c true with
          | None =>
              (Returned OMPI_ERR_BUFFER,
               set_allocator None (set_component (Some c) st0),
               [EvMutexConstruct; EvLock; EvComponentLookup "basic";
                EvAllocatorInit true; EvUnlock])
          | Some a =>
              (Returned OMPI_SUCCESS,
               set_pagesize (to_int32 (opal_getpagesize W))
                 (set_allocator (Some a) (set_component (Some c) st0)),
               [EvMutexConstruct; EvLock; EvComponentLookup "basic";
                EvAllocatorInit true; EvGetPagesize; EvUnlock])
          end
      end.
Proof.
  unfold mca_common_ompio_buffer_alloc_init. run_monad.
  destruct (1 <? add_fetch32 (mca_common_ompio_buffer_init st) 1); [reflexivity|].
  destruct (mca_allocator_component_lookup W "basic") as [c|]; [|reflexivity].
  destruct (allocator_init c true); reflexivity.
Qed.

Lemma alloc_init_returns (st : state) :
  exists rc, result_of (mca_common_ompio_buffer_alloc_init W st) = Returned rc.
Proof.
  rewrite alloc_init_run. cbv zeta.
  destruct (1 <? _); [eexists; reflexivity|].
  destruct (mca_allocator_component_lookup W "basic") as [c|]; [|eexists; reflexivity].
  destruct (allocator_init c true); eexists; reflexivity.
Qed.

Lemma alloc_init_counter (st : state) :
  mca_common_ompio_buffer_init (state_of (mca_common_ompio_buffer_alloc_init W st))
    = add_fetch32 (mca_common_ompio_buffer_init st) 1.
Proof.
  rewrite alloc_init_run. cbv zeta.
  destruct (1 <? _); [reflexivity|].
  destruct (mca_allocator_component_lookup W "basic") as [c|]; [|reflexivity].
  destruct (allocator_init c true); reflexivity.
Qed.

(** The construction body runs exactly when the fetched value is not above 1. *)
Lemma alloc_init_constructs (st : state) :
  runs_construction (trace_of (mca_common_ompio_buffer_alloc_init W st))
    = negb (1 <? add_fetch32 (mca_common_ompio_buffer_init st) 1).
Proof.
  rewrite alloc_init_run. cbv zeta.
  destruct (1 <? _); [reflexivity|].
  destruct (mca_allocator_component_lookup W "basic") as [c|]; [|reflexivity].
  destruct (allocator_init c true); reflexivity.
Qed.

Lemma alloc_init_fast_path (st : state) :
  1 < add_fetch32 (mca_common_ompio_buffer_init st) 1 ->
  mca_common_ompio_buffer_alloc_init W st =
    (Returned OMPI_SUCCESS,
     set_buffer_init (add_fetch32 (mca_common_ompio_buffer_init st) 1) st, []).
Proof.
  intros Hv. rewrite alloc_init_run. cbv zeta.
  apply Z.ltb_lt in Hv. rewrite Hv. reflexivity.
Qed.

Lemma for_each_free_seg_run (l : list pointer) (st : state) :
  exists t,
    for_each (mca_common_ompio_buffer_free_seg W) l st = (Returned tt, st, t)
    /\ runs_construction t = false.
Proof.
  induction l as [|p l IH].
  - exists []. split; reflexivity.
  - destruct IH as (t & Ht & Hc). cbn [for_each]. unfold bind at 1.
    rewrite free_seg_run. destruct p as [|a].
    + rewrite Ht. exists t. split; [reflexivity|assumption].
    + destruct (check_addr W (Ptr a)) as [[rc dev] flags].
      rewrite Ht. eexists. split; [reflexivity|].
      destruct (rc =? 0); cbn; assumption.
Qed.

Lemma alloc_fini_run (st : state) :
  exists t,
    mca_common_ompio_buffer_alloc_fini W st =
      (Returned OMPI_SUCCESS, set_allocator None st, t)
    /\ runs_construction t = false.
Proof.
  unfold mca_common_ompio_buffer_alloc_fini.
  destruct st as [comp alloc cnt ps]. unfold bind at 1, get at 1.
  cbn [mca_common_ompio_allocator].
  destruct alloc as [a|].
  - destruct (for_each_free_seg_run (alc_finalize a)
                {| mca_common_ompio_allocator_component := comp;
                   mca_common_ompio_allocator := Some a;
                   mca_common_ompio_buffer_init := cnt;
                   mca_common_ompio_pagesize := ps |}) as (t & Ht & Hc).
    run_monad. rewrite Ht. eexists. split; [reflexivity|].
    rewrite !runs_construction_app, Hc. reflexivity.
  - exists []. split; reflexivity.
Qed.

Lemma call_alc_alloc_run (a : mca_allocator_base_module_t) (size align : Z) (st : state) :
  call_alc_alloc MCA_ACCELERATOR_NO_DEVICE_ID W a size align st =
    match alc_alloc a size align with
    | FromPool p => (Returned p, st, [EvAlcAlloc (module_id a) size align])
    | NeedSegment request carve =>
        if to_size_t (mca_common_ompio_pagesize st) =? 0
        then (Fault, st, [EvAlcAlloc (module_id a) size align])
        else
          let realsize := realsize_of st (to_size_t request) in
          let buf := malloc W realsize in
          (Returned (carve buf realsize), st,
           EvAlcAlloc (module_id a) size align :: EvMalloc realsize ::
             (if is_null buf then []
              else [EvHostRegister MCA_ACCELERATOR_NO_DEVICE_ID buf realsize]))
    end.
Proof.
  unfold call_alc_alloc. unfold bind at 1, emit at 1.
  destruct (alc_alloc a size align) as [p|request carve]; [reflexivity|].
  unfold bind at 1. rewrite alloc_seg_run.
  destruct (to_size_t (mca_common_ompio_pagesize st) =? 0); [reflexivity|].
  cbv zeta. destruct (malloc W _); reflexivity.
Qed.

Lemma call_alc_alloc_frame (a : mca_allocator_base_module_t) (size align : Z) (st : state) :
  state_of (call_alc_alloc MCA_ACCELERATOR_NO_DEVICE_ID W a size align st) = st
  /\ runs_construction
       (trace_of (call_alc_alloc MCA_ACCELERATOR_NO_DEVICE_ID W a size align st)) = false.
Proof.
  rewrite call_alc_alloc_run.
  destruct (alc_alloc a size align) as [p|request carve]; [split; reflexivity|].
  destruct (to_size_t (mca_common_ompio_pagesize st) =? 0); [split; reflexivity|].
  cbv zeta. destruct (malloc W _); split; reflexivity.
Qed.

(** The part of [mca_common_ompio_alloc_buf] behind the lazy initialisation
    (lines 152-156). *)
Lemma alloc_buf_run (fh : ompio_file_t) (bufsize : Z) (st : state) :
  mca_common_ompio_alloc_buf MCA_ACCELERATOR_NO_DEVICE_ID W fh bufsize st =
    let r0 := if mca_common_ompio_buffer_init st =? 0
              then (state_of (mca_common_ompio_buffer_alloc_init W st),
                    trace_of (mca_common_ompio_buffer_alloc_init W st))
              else (st, []) in
    match mca_common_ompio_allocator (fst r0) with
    | None => (Fault, fst r0, snd r0 ++ [EvLock])
    | Some a =>
        match call_alc_alloc MCA_ACCELERATOR_NO_DEVICE_ID W a bufsize 0 (fst r0) with
        | (Returned p, st2, t2) => (Returned p, st2, snd r0 ++ EvLock :: t2 ++ [EvUnlock])
        | (Fault, st2, t2) => (Fault, st2, snd r0 ++ EvLock :: t2)
        end
    end.
Proof.
  unfold mca_common_ompio_alloc_buf. unfold bind at 1, get at 1.
  destruct (mca_common_ompio_buffer_init st =? 0).
  - destruct (alloc_init_returns st) as [rc Hrc].
    destruct (mca_common_ompio_buffer_alloc_init W st) as [[r1 st1] t1] eqn:Hinit.
    unfold result_of in Hrc. cbn [fst snd] in Hrc. subst r1.
    unfold state_of, trace_of. cbn [fst snd].
    unfold bind at 1. unfold bind at 1. rewrite Hinit. unfold ret at 1.
    unfold bind at 1, emit at 1. unfold bind at 1, get at 1.
    destruct (mca_common_ompio_allocator st1) as [a|].
    + unfold bind at 1.
      destruct (call_alc_alloc _ W a bufsize 0 st1) as [[[p|] st2] t2].
      * run_monad. cbn [app]. rewrite <- !app_assoc. reflexivity.
      * cbn [app]. rewrite <- !app_assoc. reflexivity.
    + unfold fault. cbn [app]. rewrite app_nil_r. reflexivity.
  - cbn [fst snd]. unfold bind at 1. unfold ret at 1.
    unfold bind at 1, emit at 1. unfold bind at 1, get at 1.
    destruct (mca_common_ompio_allocator st) as [a|].
    + unfold bind at 1.
      destruct (call_alc_alloc _ W a bufsize 0 st) as [[[p|] st2] t2].
      * run_monad. cbn [app]. rewrite <- ?app_assoc. reflexivity.
      * reflexivity.
    + reflexivity.
Qed.

Lemma release_buf_run (fh : ompio_file_t) (buf : pointer) (st : state) :
  mca_common_ompio_release_buf fh buf st =
    let t0 := if mca_common_ompio_buffer_init st =? 0
              then [EvOutput 1
                      ("error in mca_common_ompio_release_buf: allocator not initialized"
                         ++ newline)]
              else [] in
    match mca_common_ompio_allocator st with
    | None => (Fault, st, t0 ++ [EvLock])
    | Some a => (Returned tt, st, t0 ++ [EvLock; EvAlcFree (module_id a) buf; EvUnlock])
    end.
Proof.
  unfold mca_common_ompio_release_buf. run_monad.
  destruct (mca_common_ompio_buffer_init st =? 0);
    destruct (mca_common_ompio_allocator st); reflexivity.
Qed.

End FacadeEquations.

(** ** Lazy initialisation *)

Lemma after_init_calls_succ (W : world) (k : N) :
  after_init_calls W (N.succ k)
    = state_of (mca_common_ompio_buffer_alloc_init W (after_init_calls W k)).
Proof. unfold after_init_calls. apply N.iter_succ. Qed.

(** Below the 32-bit limit the counter counts the calls. *)
Lemma counter_after_init_calls (W : world) (k : N) :
  Z.of_N k <= INT32_MAX ->
  mca_common_ompio_buffer_init (after_init_calls W k) = Z.of_N k.
Proof.
  induction k as [|k IH] using N.peano_ind; intros Hk.
  - reflexivity.
  - rewrite after_init_calls_succ, alloc_init_counter, IH by lia.
    rewrite add_fetch32_no_wrap; unfold INT32_MIN, INT32_MAX in *; lia.
Qed.

Lemma alloc_buf_constructs (NO_DEVICE : Z) (W : world) (fh : ompio_file_t)
      (size : Z) (st : state) :
  runs_construction (trace_of (mca_common_ompio_alloc_buf NO_DEVICE W fh size st))
    = (mca_common_ompio_buffer_init st =? 0).
Proof.
  rewrite alloc_buf_run.
  destruct (mca_common_ompio_buffer_init st =? 0) eqn:Hc; cbv zeta; cbn [fst snd].
  - assert (Hrun : runs_construction
                     (trace_of (mca_common_ompio_buffer_alloc_init W st)) = true).
    { rewrite alloc_init_constructs. apply Z.eqb_eq in Hc. rewrite Hc. reflexivity. }
    destruct (mca_common_ompio_allocator _) as [a|].
    + destruct (call_alc_alloc _ W a size 0 _) as [[[p|] st2] t2];
        unfold trace_of at 1; cbn [snd];
        rewrite runs_construction_app, Hrun; reflexivity.
    + unfold trace_of at 1. cbn [snd].
      rewrite runs_construction_app, Hrun. reflexivity.
  - destruct (mca_common_ompio_allocator st) as [a|]; [|reflexivity].
    pose proof (call_alc_alloc_frame NO_DEVICE W a size 0 st) as [_ Hno].
    destruct (call_alc_alloc _ W a size 0 st) as [[[p|] st2] t2];
      unfold trace_of in *; cbn [snd app] in *.
    + change (EvLock :: t2 ++ [EvUnlock]) with ([EvLock] ++ t2 ++ [EvUnlock]).
      rewrite !runs_construction_app, Hno. reflexivity.
    + change (EvLock :: t2) with ([EvLock] ++ t2).
      rewrite runs_construction_app, Hno. reflexivity.
Qed.

Lemma alloc_buf_fast_path_state (NO_DEVICE : Z) (W : world) (fh : ompio_file_t)
      (size : Z) (st : state) :
  mca_common_ompio_buffer_init st <> 0 ->
  state_of (mca_common_ompio_alloc_buf NO_DEVICE W fh size st) = st.
Proof.
  intros Hc. rewrite alloc_buf_run. apply Z.eqb_neq in Hc. rewrite Hc.
  cbv zeta. cbn [fst snd].
  destruct (mca_common_ompio_allocator st) as [a|]; [|reflexivity].
  pose proof (call_alc_alloc_frame NO_DEVICE W a size 0 st) as [Hst _].
  destruct (call_alc_alloc _ W a size 0 st) as [[[p|] st2] t2];
    unfold state_of in *; cbn [fst snd] in *; assumption.
Qed.

(** C6 (amended).  Across any sequence of fewer than 2^31 calls of
    [mca_common_ompio_buffer_alloc_init] from program start (call number
    [k + 1] with [k < INT32_MAX], so that the 32-bit counter has not wrapped
    around), the construction body runs only for the call that moves the
    counter from 0 to 1, which is the first one; and in any state, a call
    that observes a value above 1 performs no construction, changes nothing
    but the counter and returns [OMPI_SUCCESS]. *)
Theorem alloc_init_constructs_once_before_wrap :
  forall (W : world) (k : N),
    Z.of_N k < INT32_MAX ->
    constructs_only_on_first_increment W k
    /\ (runs_construction
          (trace_of (mca_common_ompio_buffer_alloc_init W (after_init_calls W k))) = true
        <-> k = 0%N)
    /\ forall st,
        1 < add_fetch32 (mca_common_ompio_buffer_init st) 1 ->
        mca_common_ompio_buffer_alloc_init W st =
          (Returned OMPI_SUCCESS,
           set_buffer_init (add_fetch32 (mca_common_ompio_buffer_init st) 1) st, []).
Proof.
  intros W k Hk.
  assert (Hcount : mca_common_ompio_buffer_init (after_init_calls W k) = Z.of_N k)
    by (apply counter_after_init_calls; lia).
  assert (Hv : add_fetch32 (Z.of_N k) 1 = Z.of_N k + 1)
    by (apply add_fetch32_no_wrap; unfold INT32_MIN, INT32_MAX in *; lia).
  split; [|split].
  - unfold constructs_only_on_first_increment. cbv zeta.
    rewrite alloc_init_constructs, alloc_init_counter, Hcount, Hv.
    intros Hrun. apply negb_true_iff, Z.ltb_ge in Hrun. lia.
  - rewrite alloc_init_constructs, Hcount, Hv, negb_true_iff, Z.ltb_ge. lia.
  - intros st. apply alloc_init_fast_path.
Qed.

Lemma alloc_init_failure_state (W : world) (st : state) :
  mca_common_ompio_buffer_init st = 0 ->
  result_of (mca_common_ompio_buffer_alloc_init W st) = Returned OMPI_ERR_BUFFER ->
  mca_common_ompio_buffer_init (state_of (mca_common_ompio_buffer_alloc_init W st)) = 1
  /\ (mca_common_ompio_allocator st = None ->
      mca_common_ompio_allocator (state_of (mca_common_ompio_buffer_alloc_init W st)) = None).
Proof.
  intros Hzero Hfail. split.
  - rewrite alloc_init_counter, Hzero. reflexivity.
  - intros Hnone. revert Hfail. rewrite alloc_init_run, Hzero. cbv zeta.
    change (1 <? add_fetch32 0 1) with false. cbv iota.
    destruct (mca_allocator_component_lookup W "basic") as [c|]; [|intros _; exact Hnone].
    destruct (allocator_init c true); [discriminate|reflexivity].
Qed.

Lemma alloc_buf_absent_handle (NO_DEVICE : Z) (W : world) (fh : ompio_file_t)
      (bufsize : Z) (st : state) :
  mca_common_ompio_buffer_init st <> 0 ->
  mca_common_ompio_allocator st = None ->
  mca_common_ompio_alloc_buf NO_DEVICE W fh bufsize st = (Fault, st, [EvLock]).
Proof.
  intros Hc Hnone. rewrite alloc_buf_run. apply Z.eqb_neq in Hc. rewrite Hc.
  cbv zeta. cbn [fst snd]. rewrite Hnone. reflexivity.
Qed.

(** C2.  After an initialisation that started from counter 0 and no handle
    and failed (the lookup of "basic" returned nothing, or the constructor
    returned no handle), the counter reads 1 and the handle is still null.
    Every later [mca_common_ompio_alloc_buf] call finds the counter non-zero,
    skips the construction, takes the lock and calls [alc_alloc] through the
    null handle; the file-scope variables stay as they are, so the same
    happens on each further call. *)
Theorem alloc_buf_after_failed_init_faults :
  forall (NO_DEVICE : Z) (W : world) (st : state),
    mca_common_ompio_buffer_init st = 0 ->
    mca_common_ompio_allocator st = None ->
    result_of (mca_common_ompio_buffer_alloc_init W st) = Returned OMPI_ERR_BUFFER ->
    let st1 := state_of (mca_common_ompio_buffer_alloc_init W st) in
    mca_common_ompio_buffer_init st1 = 1
    /\ mca_common_ompio_allocator st1 = None
    /\ forall fh bufsize,
        mca_common_ompio_alloc_buf NO_DEVICE W fh bufsize st1 = (Fault, st1, [EvLock]).
Proof.
  intros NO_DEVICE W st Hzero Hnone Hfail st1.
  destruct (alloc_init_failure_state W st Hzero Hfail) as [Hone Hstill].
  fold st1 in Hone, Hstill. specialize (Hstill Hnone).
  split; [exact Hone|]. split; [exact Hstill|].
  intros fh bufsize. apply alloc_buf_absent_handle; [rewrite Hone; discriminate|exact Hstill].
Qed.

(** ** Teardown *)

Lemma alloc_fini_state (W : world) (st : state) :
  result_of (mca_common_ompio_buffer_alloc_fini W st) = Returned OMPI_SUCCESS
  /\ state_of (mca_common_ompio_buffer_alloc_fini W st) = set_allocator None st.
Proof.
  destruct (alloc_fini_run W st) as (t & Ht & _). rewrite Ht. split; reflexivity.
Qed.

(** C1.  [mca_common_ompio_buffer_alloc_fini] returns [OMPI_SUCCESS],
    clears the allocator handle and leaves the init counter as it was.  When
    that counter is not zero, as after every allocation, the next
    [mca_common_ompio_alloc_buf] runs no construction: it takes the lock and
    calls [alc_alloc] through the null handle. *)
Theorem alloc_buf_after_fini_faults :
  forall (NO_DEVICE : Z) (W : world) (fh : ompio_file_t) (bufsize : Z) (st : state),
    mca_common_ompio_buffer_init st <> 0 ->
    let fin := mca_common_ompio_buffer_alloc_fini W st in
    let st' := state_of fin in
    result_of fin = Returned OMPI_SUCCESS
    /\ mca_common_ompio_allocator st' = None
    /\ mca_common_ompio_buffer_init st' = mca_common_ompio_buffer_init st
    /\ mca_common_ompio_alloc_buf NO_DEVICE W fh bufsize st' = (Fault, st', [EvLock]).
Proof.
  intros NO_DEVICE W fh bufsize st Hc fin st'.
  destruct (alloc_fini_state W st) as [Hrc Hst].
  assert (Hst' : st' = set_allocator None st) by exact Hst.
  split; [exact Hrc|]. rewrite Hst'.
  split; [reflexivity|]. split; [reflexivity|].
  apply alloc_buf_absent_handle; [exact Hc|reflexivity].
Qed.

Lemma release_buf_absent_handle (fh : ompio_file_t) (buf : pointer) (st : state) :
  mca_common_ompio_allocator st = None ->
  mca_common_ompio_release_buf fh buf st =
    (Fault, st,
     (if mca_common_ompio_buffer_init st =? 0
      then [EvOutput 1
              ("error in mca_common_ompio_release_buf: allocator not initialized"
                 ++ newline)]
      else []) ++ [EvLock]).
Proof.
  intros Hnone. rewrite release_buf_run, Hnone. reflexivity.
Qed.

(** C3.  Called on the initialisers, before any allocation,
    [mca_common_ompio_release_buf] prints its message, takes the lock and
    then calls [alc_free] through the null allocator handle.  Called after
    an allocation and a finalize, it prints nothing and makes the same call
    through the null handle. *)
Theorem release_buf_without_allocator_faults :
  forall (fh : ompio_file_t) (buf : pointer),
    mca_common_ompio_release_buf fh buf initial_state =
      (Fault, initial_state,
       [EvOutput 1
          ("error in mca_common_ompio_release_buf: allocator not initialized" ++ newline);
        EvLock])
    /\ mca_common_ompio_release_buf fh buf Sample.torn_down =
        (Fault, Sample.torn_down, [EvLock]).
Proof.
  intros fh buf. split; apply release_buf_absent_handle; reflexivity.
Qed.

(** After an allocation and a finalize the handle is null while the counter
    still reads 1: the next allocation skips the construction and calls
    [alc_alloc] through the null handle. *)
Remark allocate_after_finalize_faults :
  mca_common_ompio_allocator Sample.torn_down = None
  /\ mca_common_ompio_buffer_init Sample.torn_down = 1
  /\ mca_common_ompio_alloc_buf (-1) Sample.host_only Sample.plain_file 100 Sample.torn_down
      = (Fault, Sample.torn_down, [EvLock]).
Proof. repeat split. Qed.

(** ** Inputs on which the claims as written fail *)

(** C4, counterexample: with 4096-byte pages a zero-size request is granted
    0 bytes, less than one page; and the request [SIZE_MAX] wraps around to
    0 bytes, less than the request. *)
Lemma zero_request_gets_no_page :
  ~ segment_is_whole_pages_min_one (-1) Sample.host_only initial_state 0
  /\ ~ segment_is_whole_pages_min_one (-1) Sample.host_only initial_state SIZE_MAX.
Proof.
  split; unfold segment_is_whole_pages_min_one; intros H;
    specialize (H (Ptr 65536) 0 eq_refl); destruct H as (_ & Hreq & Hpage).
  - vm_compute in Hpage. apply Hpage. reflexivity.
  - vm_compute in Hreq. apply Hreq. reflexivity.
Qed.

(** C5, counterexample: with 4096-byte pages the request [SIZE_MAX] leaves 0
    in [*size] although [malloc] succeeds; that is neither the ceiling nor
    at least the request. *)
Lemma huge_request_wraps_to_zero :
  ~ segment_size_is_ceiling (-1) Sample.host_only initial_state SIZE_MAX.
Proof.
  unfold segment_size_is_ceiling. intros H.
  specialize (H 65536 0 eq_refl). destruct H as [_ Hreq].
  vm_compute in Hreq. apply Hreq. reflexivity.
Qed.

(** C6, counterexample: after 2^31 - 1 calls the counter holds [INT32_MAX];
    call number 2^31 wraps it to [INT32_MIN], which is not above 1, and runs
    the construction body although it did not move the counter from 0
    to 1. *)
Lemma counter_wrap_reruns_construction :
  ~ constructs_only_on_first_increment Sample.host_only 2147483647.
Proof.
  unfold constructs_only_on_first_increment. cbv zeta.
  rewrite alloc_init_constructs.
  rewrite counter_after_init_calls by (unfold INT32_MAX; discriminate).
  change (Z.of_N 2147483647) with INT32_MAX. rewrite add_fetch32_wraps.
  intros H. destruct (H eq_refl) as [Habs _]. discriminate Habs.
Qed.

(** ** The theorems at work on the sample machines *)

Lemma alloc_buf_after_fini_faults_witness :
  mca_common_ompio_alloc_buf (-1) Sample.host_only Sample.plain_file 100 Sample.torn_down
    = (Fault, Sample.torn_down, [EvLock]).
Proof.
  refine (proj2 (proj2 (proj2
            (alloc_buf_after_fini_faults (-1) Sample.host_only Sample.plain_file 100
               Sample.ready _)))).
  vm_compute. discriminate.
Defined.

Lemma alloc_buf_after_failed_init_faults_witness :
  result_of
    (mca_common_ompio_alloc_buf (-1) Sample.no_strategy Sample.plain_file 100
       (state_of (mca_common_ompio_buffer_alloc_init Sample.no_strategy initial_state)))
    = Fault
  /\ result_of
       (mca_common_ompio_alloc_buf (-1) Sample.no_instance Sample.plain_file 100
          (state_of (mca_common_ompio_buffer_alloc_init Sample.no_instance initial_state)))
     = Fault.
Proof.
  split.
  - destruct (alloc_buf_after_failed_init_faults (-1) Sample.no_strategy initial_state
                eq_refl eq_refl eq_refl) as (_ & _ & H).
    exact (f_equal result_of (H Sample.plain_file 100)).
  - destruct (alloc_buf_after_failed_init_faults (-1) Sample.no_instance initial_state
                eq_refl eq_refl eq_refl) as (_ & _ & H).
    exact (f_equal result_of (H Sample.plain_file 100)).
Defined.

Lemma alloc_seg_whole_pages_witness :
  exists actual,
    result_of (mca_common_ompio_buffer_alloc_seg (-1) Sample.host_only 4097 initial_state)
      = Returned (malloc Sample.host_only actual, actual)
    /\ (4096 | actual)
    /\ (0 <= 4097 ->
        4097 + 4096 - 1 <= SIZE_MAX ->
        4097 <= actual /\ (1 <= 4097 -> 4096 <= actual) /\ (4097 = 0 -> actual = 0)).
Proof.
  apply (alloc_seg_whole_pages (-1) Sample.host_only initial_state 4097).
  vm_compute. split; [reflexivity | discriminate].
Defined.

Lemma alloc_seg_size_is_ceiling_witness :
  result_of (mca_common_ompio_buffer_alloc_seg (-1) Sample.host_only 1 initial_state)
    = Returned (Ptr 65536, 4096)
  /\ result_of (mca_common_ompio_buffer_alloc_seg (-1) Sample.host_only 4096 initial_state)
      = Returned (Ptr 65536, 4096)
  /\ result_of (mca_common_ompio_buffer_alloc_seg (-1) Sample.host_only 4097 initial_state)
      = Returned (Ptr 65536, 8192).
Proof.
  assert (Hpage : 0 < mca_common_ompio_pagesize initial_state <= INT32_MAX)
    by (vm_compute; split; [reflexivity | discriminate]).
  split; [|split].
  - refine (proj1 (alloc_seg_size_is_ceiling (-1) Sample.host_only initial_state 1 Hpage _ _));
      vm_compute; discriminate.
  - refine (proj1 (alloc_seg_size_is_ceiling (-1) Sample.host_only initial_state 4096 Hpage _ _));
      vm_compute; discriminate.
  - refine (proj1 (alloc_seg_size_is_ceiling (-1) Sample.host_only initial_state 4097 Hpage _ _));
      vm_compute; discriminate.
Defined.

Lemma alloc_init_constructs_once_before_wrap_witness :
  Z.of_N 5 < INT32_MAX
  /\ constructs_only_on_first_increment Sample.host_only 5
  /\ runs_construction
       (trace_of (mca_common_ompio_buffer_alloc_init Sample.host_only
                    (after_init_calls Sample.host_only 5))) = false.
Proof.
  assert (H5 : Z.of_N 5 < INT32_MAX) by reflexivity.
  destruct (alloc_init_constructs_once_before_wrap Sample.host_only 5 H5) as (Honly & _ & _).
  split; [exact H5|]. split; [exact Honly|]. reflexivity.
Defined.

Lemma check_gpu_buf_classification_witness :
  result_of (mca_common_ompio_check_gpu_buf 16 1 Sample.with_accelerator Sample.plain_file
               (Ptr (2 ^ 41)) initial_state) = Returned (1, 1)
  /\ result_of (mca_common_ompio_check_gpu_buf 16 1 Sample.with_accelerator Sample.plain_file
                  (Ptr (2 ^ 40)) initial_state) = Returned (1, 0)
  /\ result_of (mca_common_ompio_check_gpu_buf 16 1 Sample.with_accelerator Sample.plain_file
                  (Ptr 4096) initial_state) = Returned (0, 0)
  /\ result_of (mca_common_ompio_check_gpu_buf 16 1 Sample.with_accelerator Sample.plain_file
                  (Ptr (-1)) initial_state) = Returned (0, 0).
Proof.
  split; [|split; [|split]].
  - destruct (check_gpu_buf_classification 16 1 Sample.with_accelerator Sample.plain_file
                (Ptr (2 ^ 41)) initial_state 1 3 1 eq_refl eq_refl) as (H & _).
    apply H; [reflexivity | vm_compute; discriminate].
  - destruct (check_gpu_buf_classification 16 1 Sample.with_accelerator Sample.plain_file
                (Ptr (2 ^ 40)) initial_state 1 3 0 eq_refl eq_refl) as (_ & H & _).
    apply H; reflexivity.
  - destruct (check_gpu_buf_classification 16 1 Sample.with_accelerator Sample.plain_file
                (Ptr 4096) initial_state 0 0 0 eq_refl eq_refl) as (_ & _ & H & _).
    apply H. vm_compute. discriminate.
  - destruct (check_gpu_buf_classification 16 1 Sample.with_accelerator Sample.plain_file
                (Ptr (-1)) initial_state (-1) 0 0 eq_refl eq_refl) as (_ & _ & H & _).
    apply H. vm_compute. discriminate.
Defined.

Lemma check_gpu_buf_bypass_witness :
  mca_common_ompio_check_gpu_buf 16 1 Sample.with_accelerator Sample.no_accel_file
    (Ptr (2 ^ 41)) initial_state = (Returned (0, 0), initial_state, []).
Proof.
  apply (check_gpu_buf_bypass 16 1 Sample.with_accelerator Sample.no_accel_file
           (Ptr (2 ^ 41)) initial_state).
  vm_compute. discriminate.
Defined.

Lemma alloc_seg_registers_after_malloc_witness :
  mca_common_ompio_buffer_alloc_seg (-1) Sample.host_only 100 initial_state
    = (Returned (Ptr 65536, 4096), initial_state,
       [EvMalloc 4096; EvHostRegister (-1) (Ptr 65536) 4096])
  /\ mca_common_ompio_buffer_alloc_seg (-1) Sample.out_of_memory 100 initial_state
     = (Returned (NULL, 4096), initial_state, [EvMalloc 4096]).
Proof.
  split.
  - destruct (alloc_seg_registers_after_malloc (-1) Sample.host_only initial_state 100)
      as (H & _).
    refine (proj1 (H _) 65536 eq_refl). vm_compute. discriminate.
  - destruct (alloc_seg_registers_after_malloc (-1) Sample.out_of_memory initial_state 100)
      as (H & _).
    refine (proj2 (H _) eq_refl). vm_compute. discriminate.
Defined.

(** * Further properties of the code *)

(** ** The rounding of [mca_common_ompio_buffer_alloc_seg] *)

Lemma page_rounded_least (s p m : Z) :
  0 < p -> (p | m) -> s <= m -> page_rounded s p <= m.
Proof.
  intros Hp [k ->] Hs. unfold page_rounded.
  pose proof (ceil_div_least s p k Hp Hs). nia.
Qed.

Lemma alloc_seg_no_wrap_size (NO_DEVICE : Z) (W : world) (st : state) (s : Z)
      (buf : pointer) (actual : Z) :
  0 < mca_common_ompio_pagesize st <= INT32_MAX ->
  0 <= s ->
  s + mca_common_ompio_pagesize st - 1 <= SIZE_MAX ->
  result_of (mca_common_ompio_buffer_alloc_seg NO_DEVICE W s st) = Returned (buf, actual) ->
  actual = page_rounded s (mca_common_ompio_pagesize st).
Proof.
  intros Hp Hs Hfit Hres. rewrite alloc_seg_no_wrap in Hres by assumption.
  cbv zeta in Hres. unfold result_of in Hres. cbn [fst] in Hres.
  injection Hres as _ <-. reflexivity.
Qed.


(** X2.  Without wrap-around the granted size is monotone in the request:
    under the same cached page size a larger request is never granted a
    smaller segment. *)
Theorem alloc_seg_monotone :
  forall (NO_DEVICE : Z) (W : world) (st : state) (s1 s2 : Z),
    0 < mca_common_ompio_pagesize st <= INT32_MAX ->
    0 <= s1 -> s1 <= s2 ->
    s2 + mca_common_ompio_pagesize st - 1 <= SIZE_MAX ->
    forall buf1 actual1 buf2 actual2,
      result_of (mca_common_ompio_buffer_alloc_seg NO_DEVICE W s1 st)
        = Returned (buf1, actual1) ->
      result_of (mca_common_ompio_buffer_alloc_seg NO_DEVICE W s2 st)
        = Returned (buf2, actual2) ->
      actual1 <= actual2.
Proof.
  intros NO_DEVICE W st s1 s2 Hp Hs1 Hle Hfit buf1 actual1 buf2 actual2 H1 H2.
  apply alloc_seg_no_wrap_size in H1; [|assumption|assumption|lia].
  apply alloc_seg_no_wrap_size in H2; [|assumption|lia|assumption].
  subst actual1 actual2.
  apply page_rounded_least; [lia|apply page_rounded_divisible|].
  pose proof (ceil_div_bounds s2 (mca_common_ompio_pagesize st) ltac:(lia)) as [Hlb _].
  unfold page_rounded. lia.
Qed.

Lemma to_size_t_one_wrap (x : Z) :
  SIZE_MOD <= x < 2 * SIZE_MOD -> to_size_t x = x - SIZE_MOD.
Proof.
  intros Hx. unfold to_size_t.
  replace x with ((x - SIZE_MOD) + 1 * SIZE_MOD) at 1 by lia.
  rewrite Z_mod_plus_full. apply Z.mod_small. lia.
Qed.

(** X3.  Every request within less than a page of [SIZE_MAX] wraps around:
    for [SIZE_MAX - pagesize + 1 < s <= SIZE_MAX] the function computes zero
    pages, calls [malloc (0)] and leaves 0 in [*size]. *)
Theorem alloc_seg_top_band_wraps_to_zero :
  forall (NO_DEVICE : Z) (W : world) (st : state) (s : Z),
    0 < mca_common_ompio_pagesize st <= INT32_MAX ->
    SIZE_MAX - mca_common_ompio_pagesize st + 1 < s <= SIZE_MAX ->
    result_of (mca_common_ompio_buffer_alloc_seg NO_DEVICE W s st)
      = Returned (malloc W 0, 0)
    /\ malloc_calls (trace_of (mca_common_ompio_buffer_alloc_seg NO_DEVICE W s st)) = [0].
Proof.
  intros NO_DEVICE W st s Hp Hs.
  assert (Hp64 : to_size_t (mca_common_ompio_pagesize st) = mca_common_ompio_pagesize st).
  { apply to_size_t_small. rewrite SIZE_MAX_value. unfold INT32_MAX in Hp. lia. }
  assert (Hreal : realsize_of st s = 0).
  { unfold realsize_of. cbv zeta. rewrite Hp64, to_size_t_minus_idem.
    rewrite (to_size_t_one_wrap (s + mca_common_ompio_pagesize st - 1)).
    - rewrite Z.div_small; [reflexivity|].
      unfold SIZE_MAX in Hs. lia.
    - unfold SIZE_MAX in Hs. rewrite SIZE_MOD_value in *. unfold INT32_MAX in Hp. lia. }
  rewrite alloc_seg_run, Hp64.
  destruct (mca_common_ompio_pagesize st =? 0) eqn:Hz; [apply Z.eqb_eq in Hz; lia|].
  cbv zeta. rewrite Hreal.
  destruct (malloc W 0); split; reflexivity.
Qed.

(** ** The classifier's outputs *)

(** X4.  Whatever the handle, the pointer and the accelerator runtime say,
    [mca_common_ompio_check_gpu_buf] returns, both outputs are 0 or 1,
    [is_managed] is 1 only together with [is_gpu], and the runtime is asked
    at most once. *)
Theorem check_gpu_buf_outputs_consistent :
  forall (NO_ACCEL UNIFIED : Z) (W : world) (fh : ompio_file_t) (buf : pointer)
         (st : state),
    let r := mca_common_ompio_check_gpu_buf NO_ACCEL UNIFIED W fh buf st in
    exists is_gpu is_managed,
      result_of r = Returned (is_gpu, is_managed)
      /\ (is_gpu = 0 \/ is_gpu = 1)
      /\ (is_managed = 0 \/ is_managed = 1)
      /\ (is_managed = 1 -> is_gpu = 1)
      /\ (count_address_queries (trace_of r) <= 1)%nat.
Proof.
  intros NO_ACCEL UNIFIED W fh buf st r. subst r. rewrite check_gpu_buf_run.
  destruct (flag_set (f_flags (f_fh fh)) NO_ACCEL).
  - exists 0, 0. cbn. repeat split; auto; discriminate.
  - destruct (check_addr W buf) as [[rc dev] flags].
    destruct (0 <? rc).
    + destruct (flag_set flags (to_size_t UNIFIED)).
      * exists 1, 1. cbn. repeat split; auto.
      * exists 1, 0. cbn. repeat split; auto; discriminate.
    + exists 0, 0. cbn. repeat split; auto; discriminate.
Qed.

(** ** Return codes and state of the initialisation *)

(** X5.  [mca_common_ompio_buffer_alloc_init] returns [OMPI_ERR_BUFFER]
    exactly when the fetched counter value is at most 1 and either the
    lookup of "basic" finds nothing or the component's constructor yields no
    module; an error return leaves the cached page size untouched; and a
    success that ran the construction body has stored the component, the
    module it built, and the system page size. *)
Theorem alloc_init_error_code :
  forall (W : world) (st : state),
    let r := mca_common_ompio_buffer_alloc_init W st in
    (result_of r = Returned OMPI_ERR_BUFFER <->
       add_fetch32 (mca_common_ompio_buffer_init st) 1 <= 1
       /\ (mca_allocator_component_lookup W "basic" = None
           \/ exists c, mca_allocator_component_lookup W "basic" = Some c
                        /\ allocator_init c true = None))
    /\ (result_of r = Returned OMPI_ERR_BUFFER ->
        mca_common_ompio_pagesize (state_of r) = mca_common_ompio_pagesize st)
    /\ (result_of r = Returned OMPI_SUCCESS ->
        runs_construction (trace_of r) = true ->
        exists c a,
          mca_allocator_component_lookup W "basic" = Some c
          /\ allocator_init c true = Some a
          /\ mca_common_ompio_allocator_component (state_of r) = Some c
          /\ mca_common_ompio_allocator (state_of r) = Some a
          /\ mca_common_ompio_pagesize (state_of r) = to_int32 (opal_getpagesize W)).
Proof.
  intros W st r. subst r. rewrite alloc_init_run. cbv zeta.
  destruct (1 <? add_fetch32 (mca_common_ompio_buffer_init st) 1) eqn:Hv.
  - apply Z.ltb_lt in Hv. split; [|split].
    + split; [discriminate|]. intros [Hle _]. lia.
    + discriminate.
    + intros _ Hrun. discriminate Hrun.
  - apply Z.ltb_ge in Hv.
    destruct (mca_allocator_component_lookup W "basic") as [c|] eqn:Hl.
    + destruct (allocator_init c true) as [a|] eqn:Hi.
      * split; [|split].
        -- split; [discriminate|].
           intros [_ [Hnone|(c' & Hc' & Hnone)]]; [discriminate|].
           injection Hc' as <-. rewrite Hi in Hnone. discriminate.
        -- discriminate.
        -- intros _ _. exists c, a. repeat split; assumption.
      * split; [|split].
        -- split; [|reflexivity]. intros _. split; [assumption|].
           right. exists c. split; [reflexivity|assumption].
        -- reflexivity.
        -- discriminate.
    + split; [|split].
      * split; [|reflexivity]. intros _. split; [assumption|]. left. reflexivity.
      * reflexivity.
      * discriminate.
Qed.

(** X6.  After an initialisation that moved the counter from 0 to 1 and
    failed, the next [mca_common_ompio_buffer_alloc_init] does nothing but
    advance the counter to 2 and returns [OMPI_SUCCESS], although a handle
    that was absent is still absent. *)
Theorem alloc_init_reports_success_after_failure :
  forall (W : world) (st : state),
    mca_common_ompio_buffer_init st = 0 ->
    result_of (mca_common_ompio_buffer_alloc_init W st) = Returned OMPI_ERR_BUFFER ->
    let st1 := state_of (mca_common_ompio_buffer_alloc_init W st) in
    mca_common_ompio_buffer_alloc_init W st1
      = (Returned OMPI_SUCCESS, set_buffer_init 2 st1, [])
    /\ (mca_common_ompio_allocator st = None ->
        mca_common_ompio_allocator (set_buffer_init 2 st1) = None).
Proof.
  intros W st Hzero Hfail st1.
  destruct (alloc_init_failure_state W st Hzero Hfail) as [Hone Hnone].
  fold st1 in Hone, Hnone. split.
  - rewrite alloc_init_fast_path; rewrite Hone; reflexivity.
  - exact Hnone.
Qed.

(** ** Allocation and the lazy initialisation *)

(** X7.  [mca_common_ompio_alloc_buf] ignores the return code of the lazy
    initialisation: called with counter 0 and no handle, when the
    construction fails, it goes on to take the lock and calls [alc_alloc]
    through the null handle, with the lock taken. *)
Theorem alloc_buf_ignores_init_failure :
  forall (NO_DEVICE : Z) (W : world) (fh : ompio_file_t) (bufsize : Z) (st : state),
    mca_common_ompio_buffer_init st = 0 ->
    mca_common_ompio_allocator st = None ->
    result_of (mca_common_ompio_buffer_alloc_init W st) = Returned OMPI_ERR_BUFFER ->
    mca_common_ompio_alloc_buf NO_DEVICE W fh bufsize st
      = (Fault,
         state_of (mca_common_ompio_buffer_alloc_init W st),
         trace_of (mca_common_ompio_buffer_alloc_init W st) ++ [EvLock]).
Proof.
  intros NO_DEVICE W fh bufsize st Hzero Hnone Hfail.
  destruct (alloc_init_failure_state W st Hzero Hfail) as [_ Hstill].
  rewrite alloc_buf_run, Hzero. cbv zeta. change (0 =? 0) with true. cbv iota.
  cbn [fst snd]. rewrite (Hstill Hnone). reflexivity.
Qed.

(** X8.  The lazy initialisation is the explicit one: with the counter at 0,
    calling [mca_common_ompio_buffer_alloc_init] and then
    [mca_common_ompio_alloc_buf] gives the same result, the same file-scope
    variables and the same sequence of outside calls as calling
    [mca_common_ompio_alloc_buf] alone. *)
Theorem lazy_init_is_explicit_init :
  forall (NO_DEVICE : Z) (W : world) (fh : ompio_file_t) (bufsize : Z) (st : state),
    mca_common_ompio_buffer_init st = 0 ->
    (mca_common_ompio_buffer_alloc_init W ;;
     mca_common_ompio_alloc_buf NO_DEVICE W fh bufsize) st
      = mca_common_ompio_alloc_buf NO_DEVICE W fh bufsize st.
Proof.
  intros NO_DEVICE W fh bufsize st Hzero.
  destruct (alloc_init_returns W st) as [rc Hrc].
  pose proof (alloc_init_counter W st) as Hone. rewrite Hzero in Hone.
  change (add_fetch32 0 1) with 1 in Hone.
  rewrite (alloc_buf_run NO_DEVICE W fh bufsize st), Hzero. cbv zeta.
  change (0 =? 0) with true. cbv iota. cbn [fst snd].
  unfold bind at 1.
  destruct (mca_common_ompio_buffer_alloc_init W st) as [[r1 st1] t1].
  unfold result_of, state_of, trace_of in *. cbn [fst snd] in *. subst r1.
  rewrite (alloc_buf_run NO_DEVICE W fh bufsize st1), Hone. cbv zeta.
  change (1 =? 0) with false. cbv iota. cbn [fst snd app].
  destruct (mca_common_ompio_allocator st1) as [a|]; [|reflexivity].
  destruct (call_alc_alloc NO_DEVICE W a bufsize 0 st1) as [[[p|] st2] t2]; reflexivity.
Qed.

(** ** Teardown *)

Lemma alloc_fini_without_handle (W : world) (st : state) :
  mca_common_ompio_allocator st = None ->
  mca_common_ompio_buffer_alloc_fini W st = (Returned OMPI_SUCCESS, st, []).
Proof.
  intros Hnone. unfold mca_common_ompio_buffer_alloc_fini. run_monad.
  rewrite Hnone. reflexivity.
Qed.

(** X9.  [mca_common_ompio_buffer_alloc_fini] is idempotent: a second call
    right after a first one returns [OMPI_SUCCESS], makes no outside call at
    all (no lock, no finalize, no mutex destruction) and changes nothing; the
    same holds for any call made while the handle is absent. *)
Theorem alloc_fini_twice_is_once :
  forall (W : world) (st : state),
    let st1 := state_of (mca_common_ompio_buffer_alloc_fini W st) in
    mca_common_ompio_buffer_alloc_fini W st1 = (Returned OMPI_SUCCESS, st1, [])
    /\ (mca_common_ompio_allocator st = None ->
        mca_common_ompio_buffer_alloc_fini W st = (Returned OMPI_SUCCESS, st, [])).
Proof.
  intros W st st1. split.
  - apply alloc_fini_without_handle. subst st1.
    destruct (alloc_fini_state W st) as [_ Hst]. rewrite Hst. reflexivity.
  - apply alloc_fini_without_handle.
Qed.

Lemma call_alc_alloc_returns (NO_DEVICE : Z) (W : world)
      (a : mca_allocator_base_module_t) (size align : Z) (st : state) :
  to_size_t (mca_common_ompio_pagesize st) <> 0 ->
  exists p, result_of (call_alc_alloc NO_DEVICE W a size align st) = Returned p.
Proof.
  intros Hps. rewrite call_alc_alloc_run. apply Z.eqb_neq in Hps.
  destruct (alc_alloc a size align) as [p|request carve]; [eexists; reflexivity|].
  rewrite Hps. eexists. reflexivity.
Qed.

Lemma alloc_buf_ready (NO_DEVICE : Z) (W : world) (fh : ompio_file_t) (bufsize : Z)
      (st : state) (a : mca_allocator_base_module_t) :
  mca_common_ompio_buffer_init st <> 0 ->
  mca_common_ompio_allocator st = Some a ->
  mca_common_ompio_alloc_buf NO_DEVICE W fh bufsize st =
    match call_alc_alloc NO_DEVICE W a bufsize 0 st with
    | (Returned p, st2, t2) => (Returned p, st2, EvLock :: t2 ++ [EvUnlock])
    | (Fault, st2, t2) => (Fault, st2, EvLock :: t2)
    end.
Proof.
  intros Hc Ha. rewrite alloc_buf_run. apply Z.eqb_neq in Hc. rewrite Hc.
  cbv zeta. cbn [fst snd]. rewrite Ha.
  destruct (call_alc_alloc NO_DEVICE W a bufsize 0 st) as [[[p|] st2] t2]; reflexivity.
Qed.

Lemma positive_int32_is_nonzero_size_t (p : Z) :
  0 < p <= INT32_MAX -> to_size_t p <> 0.
Proof.
  intros Hp. rewrite to_size_t_small; [lia|].
  rewrite SIZE_MAX_value. unfold INT32_MAX in Hp. lia.
Qed.

Lemma alloc_buf_constructing (NO_DEVICE : Z) (W : world) (fh : ompio_file_t)
      (bufsize : Z) (st : state)
      (c : mca_allocator_base_component_t) (a : mca_allocator_base_module_t) :
  mca_common_ompio_buffer_init st = 0 ->
  mca_allocator_component_lookup W "basic" = Some c ->
  allocator_init c true = Some a ->
  let stc := set_pagesize (to_int32 (opal_getpagesize W))
               (set_allocator (Some a)
                  (set_component (Some c) (set_buffer_init (add_fetch32 0 1) st))) in
  let t0 := [EvMutexConstruct; EvLock; EvComponentLookup "basic";
             EvAllocatorInit true; EvGetPagesize; EvUnlock] in
  mca_common_ompio_alloc_buf NO_DEVICE W fh bufsize st =
    match call_alc_alloc NO_DEVICE W a bufsize 0 stc with
    | (Returned p, st2, t2) => (Returned p, st2, t0 ++ EvLock :: t2 ++ [EvUnlock])
    | (Fault, st2, t2) => (Fault, st2, t0 ++ EvLock :: t2)
    end.
Proof.
  intros Hzero Hlookup Hinit stc t0.
  rewrite alloc_buf_run, Hzero. cbv zeta.
  change (0 =? 0) with true. cbv iota.
  rewrite alloc_init_run, Hzero. cbv zeta.
  change (1 <? add_fetch32 0 1) with false. cbv iota.
  rewrite Hlookup, Hinit.
  unfold state_of, trace_of. cbn [fst snd]. fold stc. fold t0.
  change (mca_common_ompio_allocator stc) with (Some a). cbv iota.
  reflexivity.
Qed.

Lemma call_alc_alloc_answer (NO_DEVICE : Z) (W : world)
      (a : mca_allocator_base_module_t) (size : Z) (st : state) :
  to_size_t (mca_common_ompio_pagesize st) <> 0 ->
  result_of (call_alc_alloc NO_DEVICE W a size 0 st)
    = Returned (strategy_answer W a size st).
Proof.
  intros Hps. rewrite call_alc_alloc_run. unfold strategy_answer.
  apply Z.eqb_neq in Hps.
  destruct (alc_alloc a size 0) as [p|request carve]; [reflexivity|].
  rewrite Hps. reflexivity.
Qed.

(** X10.  Allocate, release, allocate again.  With the counter at 0, the
    "basic" strategy installed and a positive system page size, the first
    [mca_common_ompio_alloc_buf] builds the allocator (counter 1, the
    component and its module on record, the system page size cached) and
    returns the strategy's answer for the requested size: the pointer from
    its pool, or what it carves from the segment [malloc] gave for the
    page-rounded request.  [mca_common_ompio_release_buf] of that pointer
    then returns normally, prints nothing and hands it to [alc_free] between
    lock and unlock; and every later [mca_common_ompio_alloc_buf] returns the
    strategy's answer for its size as well, without construction and without
    touching the file-scope variables. *)
Theorem allocate_release_allocate :
  forall (NO_DEVICE : Z) (W : world) (fh : ompio_file_t) (bufsize : Z) (st : state)
         (c : mca_allocator_base_component_t) (a : mca_allocator_base_module_t),
    mca_common_ompio_buffer_init st = 0 ->
    mca_allocator_component_lookup W "basic" = Some c ->
    allocator_init c true = Some a ->
    0 < to_int32 (opal_getpagesize W) ->
    let r1 := mca_common_ompio_alloc_buf NO_DEVICE W fh bufsize st in
    let st1 := state_of r1 in
    let p := strategy_answer W a bufsize st1 in
    result_of r1 = Returned p
    /\ mca_common_ompio_buffer_init st1 = 1
    /\ mca_common_ompio_allocator_component st1 = Some c
    /\ mca_common_ompio_allocator st1 = Some a
    /\ mca_common_ompio_pagesize st1 = to_int32 (opal_getpagesize W)
    /\ mca_common_ompio_release_buf fh p st1
       = (Returned tt, st1, [EvLock; EvAlcFree (module_id a) p; EvUnlock])
    /\ forall fh' size',
        let r2 := mca_common_ompio_alloc_buf NO_DEVICE W fh' size' st1 in
        result_of r2 = Returned (strategy_answer W a size' st1)
        /\ state_of r2 = st1
        /\ runs_construction (trace_of r2) = false.
Proof.
  intros NO_DEVICE W fh bufsize st c a Hzero Hlookup Hinit Hps r1 st1 p.
  set (ps := to_int32 (opal_getpagesize W)) in *.
  set (stc := set_pagesize ps
                (set_allocator (Some a)
                   (set_component (Some c) (set_buffer_init (add_fetch32 0 1) st)))).
  assert (Hps64 : to_size_t (mca_common_ompio_pagesize stc) <> 0).
  { apply positive_int32_is_nonzero_size_t. split; [exact Hps|apply to_int32_range]. }
  pose proof (call_alc_alloc_answer NO_DEVICE W a bufsize stc Hps64) as Hp.
  pose proof (call_alc_alloc_frame NO_DEVICE W a bufsize 0 stc) as [Hframe _].
  assert (Hr1 : result_of r1 = Returned (strategy_answer W a bufsize stc) /\ st1 = stc).
  { subst st1 r1.
    rewrite (alloc_buf_constructing NO_DEVICE W fh bufsize st c a Hzero Hlookup Hinit).
    cbv zeta. fold ps. fold stc.
    destruct (call_alc_alloc NO_DEVICE W a bufsize 0 stc) as [[[q|] st2] t2];
      unfold result_of, state_of in *; cbn [fst snd] in *.
    - split; [exact Hp|exact Hframe].
    - discriminate Hp. }
  destruct Hr1 as [Hres Hst1]. subst p. clearbody st1. subst st1.
  split; [exact Hres|].
  split; [reflexivity|]. split; [reflexivity|]. split; [reflexivity|].
  split; [reflexivity|]. split.
  - rewrite release_buf_run. reflexivity.
  - intros fh' size' r2. subst r2.
    pose proof (call_alc_alloc_answer NO_DEVICE W a size' stc Hps64) as Hp2.
    split; [|split].
    + rewrite (alloc_buf_ready NO_DEVICE W fh' size' stc a); [|discriminate|reflexivity].
      destruct (call_alc_alloc NO_DEVICE W a size' 0 stc) as [[[q|] st2] t2];
        unfold result_of in *; cbn [fst snd] in *; [exact Hp2|discriminate Hp2].
    + apply alloc_buf_fast_path_state. discriminate.
    + rewrite alloc_buf_constructs. reflexivity.
Qed.

(** X11.  When the strategy needs a fresh segment and [malloc] fails, a
    ready [mca_common_ompio_alloc_buf] hands the strategy the null segment
    and returns whatever the strategy makes of it: [malloc] is called once
    and not retried, nothing is registered with the accelerator runtime, the
    lock is released and the file-scope variables are unchanged. *)
Theorem alloc_buf_passes_on_malloc_failure :
  forall (NO_DEVICE : Z) (W : world) (fh : ompio_file_t) (bufsize : Z) (st : state)
         (a : mca_allocator_base_module_t) (request : Z) (carve : pointer -> Z -> pointer),
    mca_common_ompio_buffer_init st <> 0 ->
    mca_common_ompio_allocator st = Some a ->
    to_size_t (mca_common_ompio_pagesize st) <> 0 ->
    alc_alloc a bufsize 0 = NeedSegment request carve ->
    malloc W (realsize_of st (to_size_t request)) = NULL ->
    mca_common_ompio_alloc_buf NO_DEVICE W fh bufsize st =
      (Returned (carve NULL (realsize_of st (to_size_t request))), st,
       [EvLock; EvAlcAlloc (module_id a) bufsize 0;
        EvMalloc (realsize_of st (to_size_t request)); EvUnlock]).
Proof.
  intros NO_DEVICE W fh bufsize st a request carve Hc Ha Hps Hstep Hmalloc.
  rewrite (alloc_buf_ready NO_DEVICE W fh bufsize st a Hc Ha).
  rewrite call_alc_alloc_run, Hstep.
  apply Z.eqb_neq in Hps. rewrite Hps. cbv zeta. rewrite Hmalloc. reflexivity.
Qed.

(** ** Lock discipline *)

Lemma lock_discipline_app (t1 t2 : trace) (held : bool) :
  lock_discipline held (t1 ++ t2) =
    match lock_discipline held t1 with
    | Some held' => lock_discipline held' t2
    | None => None
    end.
Proof.
  revert held. induction t1 as [|e t1 IH]; intros held; [reflexivity|].
  destruct e; cbn [app lock_discipline under_lock_only outside_lock_only andb negb];
    destruct held; cbn [andb negb]; try reflexivity; apply IH.
Qed.

Lemma free_seg_under_lock (W : world) (buf : pointer) (st : state) :
  lock_discipline true (trace_of (mca_common_ompio_buffer_free_seg W buf st)) = Some true.
Proof.
  rewrite free_seg_run. destruct buf as [|a]; [reflexivity|].
  destruct (check_addr W (Ptr a)) as [[rc dev] flags].
  destruct (rc =? 0); reflexivity.
Qed.

Lemma for_each_free_seg_under_lock (W : world) (l : list pointer) (st : state) :
  lock_discipline true
    (trace_of (for_each (mca_common_ompio_buffer_free_seg W) l st)) = Some true.
Proof.
  induction l as [|p l IH]; [reflexivity|].
  pose proof (free_seg_under_lock W p st) as Hp.
  cbn [for_each]. unfold bind at 1.
  destruct (mca_common_ompio_buffer_free_seg W p st) as [[[u|] st1] t1] eqn:Hrun.
  - assert (Hst : st1 = st).
    { rewrite free_seg_run in Hrun. destruct p as [|a].
      - injection Hrun as _ <- _. reflexivity.
      - destruct (check_addr W (Ptr a)) as [[rc dev] flags].
        injection Hrun as _ <- _. reflexivity. }
    subst st1. unfold trace_of in *. cbn [snd] in *.
    destruct (for_each (mca_common_ompio_buffer_free_seg W) l st) as [[r st2] t2].
    cbn [snd] in *. rewrite lock_discipline_app, Hp. exact IH.
  - exact Hp.
Qed.

Lemma alloc_fini_trace (W : world) (st : state) (a : mca_allocator_base_module_t) :
  mca_common_ompio_allocator st = Some a ->
  trace_of (mca_common_ompio_buffer_alloc_fini W st) =
    [EvLock; EvAlcFinalize (module_id a)]
      ++ trace_of (for_each (mca_common_ompio_buffer_free_seg W) (alc_finalize a) st)
      ++ [EvUnlock; EvMutexDestruct].
Proof.
  intros Ha. unfold mca_common_ompio_buffer_alloc_fini.
  destruct (for_each_free_seg_run W (alc_finalize a) st) as (t & Ht & _).
  run_monad. rewrite Ha. run_monad. rewrite Ht.
  unfold trace_of. cbn [snd app]. rewrite app_nil_r. reflexivity.
Qed.

Lemma call_alc_alloc_under_lock (NO_DEVICE : Z) (W : world)
      (a : mca_allocator_base_module_t) (size align : Z) (st : state) :
  lock_discipline true (trace_of (call_alc_alloc NO_DEVICE W a size align st)) = Some true.
Proof.
  rewrite call_alc_alloc_run.
  destruct (alc_alloc a size align) as [p|request carve]; [reflexivity|].
  destruct (to_size_t (mca_common_ompio_pagesize st) =? 0); [reflexivity|].
  cbv zeta. destruct (malloc W _); reflexivity.
Qed.

Lemma alloc_init_lock_balanced (W : world) (st : state) :
  lock_discipline false (trace_of (mca_common_ompio_buffer_alloc_init W st)) = Some false.
Proof.
  rewrite alloc_init_run. cbv zeta.
  destruct (1 <? _); [reflexivity|].
  destruct (mca_allocator_component_lookup W "basic") as [c|]; [|reflexivity].
  destruct (allocator_init c true); reflexivity.
Qed.

Lemma alloc_fini_lock_balanced (W : world) (st : state) :
  lock_discipline false (trace_of (mca_common_ompio_buffer_alloc_fini W st)) = Some false.
Proof.
  destruct (mca_common_ompio_allocator st) as [a|] eqn:Ha.
  - rewrite (alloc_fini_trace W st a Ha).
    change ([EvLock; EvAlcFinalize (module_id a)]
              ++ trace_of (for_each (mca_common_ompio_buffer_free_seg W) (alc_finalize a) st)
              ++ [EvUnlock; EvMutexDestruct])
      with (EvLock :: EvAlcFinalize (module_id a)
              :: trace_of (for_each (mca_common_ompio_buffer_free_seg W) (alc_finalize a) st)
              ++ [EvUnlock; EvMutexDestruct]).
    cbn [lock_discipline under_lock_only outside_lock_only andb negb].
    rewrite lock_discipline_app, for_each_free_seg_under_lock. reflexivity.
  - rewrite (alloc_fini_without_handle W st Ha). reflexivity.
Qed.

Lemma alloc_buf_lock_discipline (NO_DEVICE : Z) (W : world) (fh : ompio_file_t)
      (bufsize : Z) (st : state) :
  lock_discipline false (trace_of (mca_common_ompio_alloc_buf NO_DEVICE W fh bufsize st))
    = Some (faulted (result_of (mca_common_ompio_alloc_buf NO_DEVICE W fh bufsize st))).
Proof.
  rewrite alloc_buf_run. cbv zeta.
  set (r0 := if mca_common_ompio_buffer_init st =? 0
             then (state_of (mca_common_ompio_buffer_alloc_init W st),
                   trace_of (mca_common_ompio_buffer_alloc_init W st))
             else (st, [])).
  assert (H0 : lock_discipline false (snd r0) = Some false).
  { subst r0. destruct (mca_common_ompio_buffer_init st =? 0); cbn [snd];
      [apply alloc_init_lock_balanced|reflexivity]. }
  destruct (mca_common_ompio_allocator (fst r0)) as [a|].
  - pose proof (call_alc_alloc_under_lock NO_DEVICE W a bufsize 0 (fst r0)) as Hcall.
    destruct (call_alc_alloc NO_DEVICE W a bufsize 0 (fst r0)) as [[[p|] st2] t2];
      unfold trace_of, result_of in *; cbn [fst snd faulted] in *;
      rewrite lock_discipline_app, H0; cbn [lock_discipline].
    + rewrite lock_discipline_app, Hcall. reflexivity.
    + exact Hcall.
  - unfold trace_of, result_of. cbn [fst snd faulted].
    rewrite lock_discipline_app, H0. reflexivity.
Qed.

Lemma release_buf_lock_discipline (fh : ompio_file_t) (buf : pointer) (st : state) :
  lock_discipline false (trace_of (mca_common_ompio_release_buf fh buf st))
    = Some (faulted (result_of (mca_common_ompio_release_buf fh buf st))).
Proof.
  rewrite release_buf_run. cbv zeta.
  destruct (mca_common_ompio_buffer_init st =? 0);
    destruct (mca_common_ompio_allocator st); reflexivity.
Qed.

(** X12.  Every entry point keeps the lock discipline.  In the trace of
    [mca_common_ompio_buffer_alloc_init], [mca_common_ompio_buffer_alloc_fini],
    [mca_common_ompio_alloc_buf] and [mca_common_ompio_release_buf] the lock is
    never taken twice nor released when free, every call into the allocator
    framework, [malloc], [free] and the registration interface lies between a
    lock and its unlock, and the mutex is constructed and destroyed only
    while free.  Every return path, the error returns of the initialisation
    included, has released the lock; the lock is still taken exactly on the
    paths that end in the call through a null handle or the division by a
    zero page size. *)
Theorem entry_points_keep_lock_discipline :
  forall (NO_DEVICE : Z) (W : world) (fh : ompio_file_t) (bufsize : Z)
         (buf : pointer) (st : state),
    lock_discipline false (trace_of (mca_common_ompio_buffer_alloc_init W st)) = Some false
    /\ lock_discipline false (trace_of (mca_common_ompio_buffer_alloc_fini W st)) = Some false
    /\ lock_discipline false
         (trace_of (mca_common_ompio_alloc_buf NO_DEVICE W fh bufsize st))
       = Some (faulted (result_of (mca_common_ompio_alloc_buf NO_DEVICE W fh bufsize st)))
    /\ lock_discipline false (trace_of (mca_common_ompio_release_buf fh buf st))
       = Some (faulted (result_of (mca_common_ompio_release_buf fh buf st))).
Proof.
  intros NO_DEVICE W fh bufsize buf st.
  split; [apply alloc_init_lock_balanced|].
  split; [apply alloc_fini_lock_balanced|].
  split; [apply alloc_buf_lock_discipline|apply release_buf_lock_discipline].
Qed.

Lemma then_ret_run {A} (m : M A) (st : state) :
  trace_of ((m ;; ret tt) st) = trace_of (m st)
  /\ faulted (result_of ((m ;; ret tt) st)) = faulted (result_of (m st)).
Proof.
  unfold bind. destruct (m st) as [[[a|] st1] t1]; unfold trace_of, result_of; cbn.
  - rewrite app_nil_r. split; reflexivity.
  - split; reflexivity.
Qed.

Lemma run_call_lock_discipline (NO_ACCEL UNIFIED NO_DEVICE : Z) (W : world)
      (c : call) (st : state) :
  lock_discipline false (trace_of (run_call NO_ACCEL UNIFIED NO_DEVICE W c st))
    = Some (faulted (result_of (run_call NO_ACCEL UNIFIED NO_DEVICE W c st))).
Proof.
  destruct c as [fh buf| | |fh bufsize|fh buf]; cbn [run_call].
  - destruct (then_ret_run (mca_common_ompio_check_gpu_buf NO_ACCEL UNIFIED W fh buf) st)
      as [-> ->].
    rewrite check_gpu_buf_run. destruct (flag_set _ _); [reflexivity|].
    destruct (check_addr W buf) as [[rc dev] flags]. reflexivity.
  - destruct (then_ret_run (mca_common_ompio_buffer_alloc_init W) st) as [-> ->].
    rewrite alloc_init_lock_balanced.
    destruct (alloc_init_returns W st) as [rc ->]. reflexivity.
  - destruct (then_ret_run (mca_common_ompio_buffer_alloc_fini W) st) as [-> ->].
    rewrite alloc_fini_lock_balanced.
    destruct (alloc_fini_state W st) as [-> _]. reflexivity.
  - destruct (then_ret_run (mca_common_ompio_alloc_buf NO_DEVICE W fh bufsize) st)
      as [-> ->].
    apply alloc_buf_lock_discipline.
  - apply release_buf_lock_discipline.
Qed.

(** X13.  The discipline composes: along any sequence of calls to the entry
    points, started in any state with the lock free, the whole trace keeps
    the lock discipline, and the lock is free at the end of every run that
    did not end in a fault. *)
Theorem call_sequences_keep_lock_discipline :
  forall (NO_ACCEL UNIFIED NO_DEVICE : Z) (W : world) (l : list call) (st : state),
    lock_discipline false (trace_of (run_calls NO_ACCEL UNIFIED NO_DEVICE W l st))
      = Some (faulted (result_of (run_calls NO_ACCEL UNIFIED NO_DEVICE W l st))).
Proof.
  intros NO_ACCEL UNIFIED NO_DEVICE W l. unfold run_calls.
  induction l as [|c l IH]; intros st; [reflexivity|].
  pose proof (run_call_lock_discipline NO_ACCEL UNIFIED NO_DEVICE W c st) as Hc.
  cbn [for_each]. unfold bind at 1 2.
  destruct (run_call NO_ACCEL UNIFIED NO_DEVICE W c st) as [[[u|] st1] t1];
    unfold trace_of, result_of in Hc; cbn [fst snd faulted] in Hc.
  - pose proof (IH st1) as Hl.
    destruct (for_each (run_call NO_ACCEL UNIFIED NO_DEVICE W) l st1) as [[r st2] t2].
    unfold trace_of, result_of in *. cbn [fst snd] in *.
    rewrite lock_discipline_app, Hc. exact Hl.
  - exact Hc.
Qed.

(** ** Invariants of the file-scope variables over sequences of calls *)

Lemma for_each_invariant {A} (f : A -> M unit) (Inv : state -> Prop) :
  (forall x st, Inv st -> Inv (state_of (f x st))) ->
  forall l st, Inv st -> Inv (state_of (for_each f l st)).
Proof.
  intros Hstep l. induction l as [|x l IH]; intros st Hst; [exact Hst|].
  cbn [for_each]. unfold bind at 1.
  pose proof (Hstep x st Hst) as Hx.
  destruct (f x st) as [[[u|] st1] t1]; unfold state_of in Hx; cbn [fst snd] in Hx.
  - pose proof (IH st1 Hx) as Hl.
    destruct (for_each f l st1) as [[r st2] t2]. exact Hl.
  - exact Hx.
Qed.

Lemma state_of_then_ret {A} (m : M A) (st : state) :
  state_of ((m ;; ret tt) st) = state_of (m st).
Proof.
  unfold bind. destruct (m st) as [[[a|] st1] t1]; reflexivity.
Qed.

Lemma alloc_buf_state (NO_DEVICE : Z) (W : world) (fh : ompio_file_t) (bufsize : Z)
      (st : state) :
  state_of (mca_common_ompio_alloc_buf NO_DEVICE W fh bufsize st) =
    if mca_common_ompio_buffer_init st =? 0
    then state_of (mca_common_ompio_buffer_alloc_init W st)
    else st.
Proof.
  rewrite alloc_buf_run. cbv zeta.
  set (r0 := if mca_common_ompio_buffer_init st =? 0
             then (state_of (mca_common_ompio_buffer_alloc_init W st),
                   trace_of (mca_common_ompio_buffer_alloc_init W st))
             else (st, [])).
  assert (H0 : fst r0 = if mca_common_ompio_buffer_init st =? 0
                        then state_of (mca_common_ompio_buffer_alloc_init W st)
                        else st).
  { subst r0. destruct (mca_common_ompio_buffer_init st =? 0); reflexivity. }
  rewrite <- H0.
  destruct (mca_common_ompio_allocator (fst r0)) as [a|]; [|reflexivity].
  pose proof (call_alc_alloc_frame NO_DEVICE W a bufsize 0 (fst r0)) as [Hframe _].
  destruct (call_alc_alloc NO_DEVICE W a bufsize 0 (fst r0)) as [[[p|] st2] t2];
    unfold state_of in *; cbn [fst snd] in *; exact Hframe.
Qed.

Lemma run_call_state (NO_ACCEL UNIFIED NO_DEVICE : Z) (W : world) (c : call) (st : state) :
  state_of (run_call NO_ACCEL UNIFIED NO_DEVICE W c st) =
    match c with
    | CallAllocInit => state_of (mca_common_ompio_buffer_alloc_init W st)
    | CallAllocFini => set_allocator None st
    | CallAllocBuf _ _ =>
        if mca_common_ompio_buffer_init st =? 0
        then state_of (mca_common_ompio_buffer_alloc_init W st)
        else st
    | CallCheckGpuBuf _ _ | CallReleaseBuf _ _ => st
    end.
Proof.
  destruct c as [fh buf| | |fh bufsize|fh buf]; cbn [run_call];
    rewrite ?state_of_then_ret.
  - rewrite check_gpu_buf_run.
    destruct (flag_set _ _); [reflexivity|].
    destruct (check_addr W buf) as [[rc dev] flags]. reflexivity.
  - reflexivity.
  - apply alloc_fini_state.
  - apply alloc_buf_state.
  - rewrite release_buf_run. cbv zeta.
    destruct (mca_common_ompio_allocator st); reflexivity.
Qed.

Lemma alloc_init_keeps_handle_consistent (W : world) (st : state) :
  handle_is_consistent W st ->
  handle_is_consistent W (state_of (mca_common_ompio_buffer_alloc_init W st)).
Proof.
  intros Hinv. rewrite alloc_init_run. cbv zeta.
  destruct (1 <? _); [exact Hinv|].
  destruct (mca_allocator_component_lookup W "basic") as [c|] eqn:Hl.
  - destruct (allocator_init c true) as [a|] eqn:Hi.
    + intros a' Ha'. injection Ha' as <-. split; [reflexivity|].
      exists c. repeat split; assumption.
    + intros a' Ha'. discriminate Ha'.
  - intros a Ha. destruct (Hinv a Ha) as (_ & c & Hc & _).
    rewrite Hl in Hc. discriminate Hc.
Qed.

(** X14.  After any sequence of calls to the entry points, from program
    start: whenever the allocator handle is present, it is the module the
    "basic" component built, that component is the one on record, and the
    cached page size is the system page size (as an [int32_t]), not the
    initialiser 4096. *)
Theorem present_handle_is_consistent :
  forall (NO_ACCEL UNIFIED NO_DEVICE : Z) (W : world) (l : list call) (a : mca_allocator_base_module_t),
    let st := state_of (run_calls NO_ACCEL UNIFIED NO_DEVICE W l initial_state) in
    mca_common_ompio_allocator st = Some a ->
    mca_common_ompio_pagesize st = to_int32 (opal_getpagesize W)
    /\ exists c,
        mca_allocator_component_lookup W "basic" = Some c
        /\ mca_common_ompio_allocator_component st = Some c
        /\ allocator_init c true = Some a.
Proof.
  intros NO_ACCEL UNIFIED NO_DEVICE W l a st. revert a. subst st.
  change (handle_is_consistent W
            (state_of (for_each (run_call NO_ACCEL UNIFIED NO_DEVICE W) l initial_state))).
  apply for_each_invariant.
  - intros c st Hinv. rewrite run_call_state.
    destruct c as [fh buf| | |fh bufsize|fh buf]; try exact Hinv.
    + apply alloc_init_keeps_handle_consistent, Hinv.
    + intros a Ha. discriminate Ha.
    + destruct (mca_common_ompio_buffer_init st =? 0); [|exact Hinv].
      apply alloc_init_keeps_handle_consistent, Hinv.
  - intros a Ha. discriminate Ha.
Qed.

Lemma run_call_counter_tracks_handle (NO_ACCEL UNIFIED NO_DEVICE : Z) (W : world)
      (c : call) (n : Z) (st : state) :
  n < INT32_MAX ->
  counter_tracks_handle n st ->
  counter_tracks_handle (n + 1) (state_of (run_call NO_ACCEL UNIFIED NO_DEVICE W c st)).
Proof.
  intros Hn [[Hlo Hhi] Hlive]. rewrite run_call_state.
  assert (Hkeep : counter_tracks_handle (n + 1) st).
  { split; [lia|exact Hlive]. }
  assert (Hinit : counter_tracks_handle (n + 1)
                    (state_of (mca_common_ompio_buffer_alloc_init W st))).
  { unfold counter_tracks_handle. rewrite alloc_init_counter.
    rewrite add_fetch32_no_wrap by (unfold INT32_MIN, INT32_MAX in *; lia).
    split; lia. }
  destruct c as [fh buf| | |fh bufsize|fh buf]; try assumption.
  - split; [cbn; lia|]. intros Habs. exfalso. apply Habs. reflexivity.
  - destruct (mca_common_ompio_buffer_init st =? 0); assumption.
Qed.

Lemma run_calls_counter_tracks_handle (NO_ACCEL UNIFIED NO_DEVICE : Z) (W : world)
      (l : list call) (n : Z) (st : state) :
  n + Z.of_nat (List.length l) <= INT32_MAX ->
  counter_tracks_handle n st ->
  counter_tracks_handle (n + Z.of_nat (List.length l))
    (state_of (run_calls NO_ACCEL UNIFIED NO_DEVICE W l st)).
Proof.
  revert n st. induction l as [|c l IH]; intros n st Hlen Hinv.
  - cbn [List.length run_calls for_each]. rewrite Z.add_0_r. exact Hinv.
  - cbn [List.length] in *. rewrite Nat2Z.inj_succ in *.
    pose proof (run_call_counter_tracks_handle NO_ACCEL UNIFIED NO_DEVICE W c n st
                  ltac:(lia) Hinv) as Hc.
    unfold run_calls in *. cbn [for_each]. unfold bind at 1.
    destruct (run_call NO_ACCEL UNIFIED NO_DEVICE W c st) as [[[u|] st1] t1];
      unfold state_of in Hc; cbn [fst snd] in Hc.
    + pose proof (IH (n + 1) st1 ltac:(lia) Hc) as Hl.
      replace (n + Z.succ (Z.of_nat (List.length l)))
        with (n + 1 + Z.of_nat (List.length l)) by lia.
      destruct (for_each (run_call NO_ACCEL UNIFIED NO_DEVICE W) l st1) as [[r st2] t2].
      exact Hl.
    + unfold state_of. cbn [fst snd].
      destruct Hc as [[Hlo Hhi] Hlive]. split; [lia|exact Hlive].
Qed.

(** X15.  A live allocator handle is never built over.  After any sequence
    of fewer than 2^31 - 1 calls to the entry points from program start, if
    the handle is present then the counter is at least 1, so neither
    [mca_common_ompio_buffer_alloc_init] nor [mca_common_ompio_alloc_buf]
    runs the construction body in that state. *)
Theorem live_handle_is_not_rebuilt :
  forall (NO_ACCEL UNIFIED NO_DEVICE : Z) (W : world) (l : list call)
         (a : mca_allocator_base_module_t),
    Z.of_nat (List.length l) < INT32_MAX ->
    let st := state_of (run_calls NO_ACCEL UNIFIED NO_DEVICE W l initial_state) in
    mca_common_ompio_allocator st = Some a ->
    1 <= mca_common_ompio_buffer_init st <= Z.of_nat (List.length l)
    /\ runs_construction (trace_of (mca_common_ompio_buffer_alloc_init W st)) = false
    /\ forall fh bufsize,
        runs_construction
          (trace_of (mca_common_ompio_alloc_buf NO_DEVICE W fh bufsize st)) = false.
Proof.
  intros NO_ACCEL UNIFIED NO_DEVICE W l a Hlen st Ha.
  assert (Hinv : counter_tracks_handle (0 + Z.of_nat (List.length l)) st).
  { apply run_calls_counter_tracks_handle; [lia|].
    split; [cbn; lia|]. intros Habs. exfalso. apply Habs. reflexivity. }
  destruct Hinv as [[Hlo Hhi] Hlive].
  assert (Hone : 1 <= mca_common_ompio_buffer_init st).
  { apply Hlive. rewrite Ha. discriminate. }
  split; [lia|]. split.
  - rewrite alloc_init_constructs.
    rewrite add_fetch32_no_wrap by (unfold INT32_MIN, INT32_MAX in *; lia).
    apply negb_false_iff, Z.ltb_lt. lia.
  - intros fh bufsize. rewrite alloc_buf_constructs. apply Z.eqb_neq. lia.
Qed.

(** ** These properties at work on the sample machines *)


Lemma alloc_seg_monotone_witness : 4096 <= 8192.
Proof.
  refine (alloc_seg_monotone (-1) Sample.host_only initial_state 1 4097
            _ _ _ _ (Ptr 65536) 4096 (Ptr 65536) 8192 eq_refl eq_refl).
  - vm_compute. split; [reflexivity | discriminate].
  - vm_compute. discriminate.
  - vm_compute. discriminate.
  - vm_compute. discriminate.
Defined.

Lemma alloc_seg_top_band_wraps_to_zero_witness :
  result_of (mca_common_ompio_buffer_alloc_seg (-1) Sample.host_only (SIZE_MAX - 100)
               initial_state) = Returned (Ptr 65536, 0)
  /\ malloc_calls
       (trace_of (mca_common_ompio_buffer_alloc_seg (-1) Sample.host_only (SIZE_MAX - 100)
                    initial_state)) = [0].
Proof.
  refine (alloc_seg_top_band_wraps_to_zero (-1) Sample.host_only initial_state
            (SIZE_MAX - 100) _ _).
  - vm_compute. split; [reflexivity | discriminate].
  - vm_compute. split; [reflexivity | discriminate].
Defined.

Lemma alloc_init_error_code_witness :
  result_of (mca_common_ompio_buffer_alloc_init Sample.no_strategy initial_state)
    = Returned OMPI_ERR_BUFFER
  /\ result_of (mca_common_ompio_buffer_alloc_init Sample.no_instance initial_state)
     = Returned OMPI_ERR_BUFFER.
Proof.
  split.
  - apply (proj1 (alloc_init_error_code Sample.no_strategy initial_state)).
    split; [vm_compute; discriminate | left; reflexivity].
  - apply (proj1 (alloc_init_error_code Sample.no_instance initial_state)).
    split; [vm_compute; discriminate|].
    right. exists Sample.broken_component. split; reflexivity.
Defined.

Lemma alloc_init_reports_success_after_failure_witness :
  result_of
    (mca_common_ompio_buffer_alloc_init Sample.no_strategy
       (state_of (mca_common_ompio_buffer_alloc_init Sample.no_strategy initial_state)))
    = Returned OMPI_SUCCESS.
Proof.
  destruct (alloc_init_reports_success_after_failure Sample.no_strategy initial_state
              eq_refl eq_refl) as [H _].
  exact (f_equal result_of H).
Defined.

Lemma alloc_buf_ignores_init_failure_witness :
  result_of (mca_common_ompio_alloc_buf (-1) Sample.no_instance Sample.plain_file 100
               initial_state) = Fault.
Proof.
  exact (f_equal result_of
           (alloc_buf_ignores_init_failure (-1) Sample.no_instance Sample.plain_file 100
              initial_state eq_refl eq_refl eq_refl)).
Defined.

Lemma lazy_init_is_explicit_init_witness :
  (mca_common_ompio_buffer_alloc_init Sample.host_only ;;
   mca_common_ompio_alloc_buf (-1) Sample.host_only Sample.plain_file 100) initial_state
    = mca_common_ompio_alloc_buf (-1) Sample.host_only Sample.plain_file 100 initial_state.
Proof.
  exact (lazy_init_is_explicit_init (-1) Sample.host_only Sample.plain_file 100
           initial_state eq_refl).
Defined.

Lemma alloc_fini_twice_is_once_witness :
  mca_common_ompio_buffer_alloc_fini Sample.host_only initial_state
    = (Returned OMPI_SUCCESS, initial_state, [])
  /\ mca_common_ompio_buffer_alloc_fini Sample.host_only Sample.torn_down
     = (Returned OMPI_SUCCESS, Sample.torn_down, []).
Proof.
  split.
  - exact (proj2 (alloc_fini_twice_is_once Sample.host_only initial_state) eq_refl).
  - exact (proj1 (alloc_fini_twice_is_once Sample.host_only Sample.ready)).
Defined.

Lemma allocate_release_allocate_witness :
  result_of (mca_common_ompio_alloc_buf (-1) Sample.host_only Sample.plain_file 100
               initial_state) = Returned (Ptr 65552)
  /\ mca_common_ompio_release_buf Sample.plain_file (Ptr 65552) Sample.ready
     = (Returned tt, Sample.ready, [EvLock; EvAlcFree 1 (Ptr 65552); EvUnlock])
  /\ result_of (mca_common_ompio_alloc_buf (-1) Sample.host_only Sample.plain_file 5000
                  Sample.ready) = Returned (Ptr 65552).
Proof.
  destruct (allocate_release_allocate (-1) Sample.host_only Sample.plain_file 100
              initial_state Sample.basic_component Sample.basic_module
              eq_refl eq_refl eq_refl eq_refl)
    as (Hres & _ & _ & _ & _ & Hrel & Hlater).
  split; [exact Hres|]. split; [exact Hrel|].
  exact (proj1 (Hlater Sample.plain_file 5000)).
Defined.

Lemma alloc_buf_passes_on_malloc_failure_witness :
  mca_common_ompio_alloc_buf (-1) Sample.out_of_memory Sample.plain_file 100 Sample.ready
    = (Returned NULL, Sample.ready,
       [EvLock; EvAlcAlloc 1 100 0; EvMalloc 4096; EvUnlock]).
Proof.
  refine (alloc_buf_passes_on_malloc_failure (-1) Sample.out_of_memory Sample.plain_file
            100 Sample.ready Sample.basic_module 116
            (fun seg _ => match seg with NULL => NULL | Ptr a => Ptr (a + 16) end)
            _ eq_refl _ eq_refl eq_refl).
  - vm_compute. discriminate.
  - vm_compute. discriminate.
Defined.

Lemma present_handle_is_consistent_witness :
  mca_common_ompio_pagesize Sample.ready = to_int32 (opal_getpagesize Sample.host_only)
  /\ exists c,
      mca_allocator_component_lookup Sample.host_only "basic" = Some c
      /\ mca_common_ompio_allocator_component Sample.ready = Some c
      /\ allocator_init c true = Some Sample.basic_module.
Proof.
  exact (present_handle_is_consistent 16 1 (-1) Sample.host_only
           [CallAllocBuf Sample.plain_file 100] Sample.basic_module eq_refl).
Defined.

Lemma live_handle_is_not_rebuilt_witness :
  runs_construction
    (trace_of (mca_common_ompio_buffer_alloc_init Sample.host_only Sample.ready)) = false.
Proof.
  refine (proj1 (proj2 (live_handle_is_not_rebuilt 16 1 (-1) Sample.host_only
                          [CallAllocBuf Sample.plain_file 100] Sample.basic_module
                          _ eq_refl))).
  reflexivity.
Defined.
